(** * Learning-not-to-learn trainer (main.py): a shallow embedding

    The trainer of [main.py] is embedded as Rocq definitions:
    - [Py]: the Python primitives the trainer relies on (floor division,
      [range], exceptions);
    - [Quantizer]: the bucket boundaries of [_preprocess_dataset] and the
      per-channel bucketing of [_preprocess];
    - [Autodiff]: a tape of layers with forward and backward passes, with the
      gradient-reversal layer;
    - [Loss]: the categorical cross-entropy used by the self-distillation
      term of [_train_step];
    - [Loop]: the trainer state, the two training steps, the epoch loop of
      [train] and the checkpoint restore. *)

From Stdlib Require Import ZArith List Lia QArith Qround Reals Lra.
From stdpp Require Import gmap strings list.
Import ListNotations.

(** ** Python primitives *)

Module Py.

(** The exceptions that matter to the trainer: the two raised by the integer
    arithmetic of [_preprocess_dataset], and whatever a library call raises. *)
Inductive exception : Type :=
  | ZeroDivisionError
  | ValueError
  | LibraryError (msg : string).

Inductive result (A : Type) : Type :=
  | Ok (a : A)
  | Raise (e : exception).
Arguments Ok {A} a.
Arguments Raise {A} e.

Definition bind {A B : Type} (r : result A) (k : A -> result B) : result B :=
  match r with
  | Ok a => k a
  | Raise e => Raise e
  end.

Definition is_ok {A : Type} (r : result A) : bool :=
  match r with Ok _ => true | Raise _ => false end.

(** [a // b] on Python integers: floor division, [ZeroDivisionError] on 0.
    [Z.div] rounds towards minus infinity, as Python does. *)
Definition floordiv (a b : Z) : result Z :=
  if (b =? 0)%Z then Raise ZeroDivisionError else Ok (a / b)%Z.

(** Number of elements of [range(start, stop, step)] for [step <> 0]. *)
Definition range_len (start stop step : Z) : Z :=
  if (0 <? step)%Z then
    if (start <? stop)%Z then ((stop - start - 1) / step + 1)%Z else 0%Z
  else
    if (stop <? start)%Z then ((start - stop - 1) / (- step) + 1)%Z else 0%Z.

(** [list(range(start, stop, step))]; [ValueError] when [step] is 0. *)
Definition range (start stop step : Z) : result (list Z) :=
  if (step =? 0)%Z then Raise ValueError
  else Ok (map (fun i : nat => (start + Z.of_nat i * step)%Z)
               (seq 0 (Z.to_nat (range_len start stop step)))).

(** [l[1:]] *)
Definition slice_from_1 {A : Type} (l : list A) : list A := tl l.

End Py.

#[global] Instance result_ret : MRet Py.result := @Py.Ok.
#[global] Instance result_bind : MBind Py.result :=
  fun A B k r => Py.bind r k.

(** ** The bias quantizer *)

Module Quantizer.
Import Py.

(** Line 71: [boundaries = list(range(0, 256, 256//self.args.dim_bias))[1:]] *)
Definition boundaries (dim_bias : Z) : result (list Z) :=
  step ← floordiv 256 dim_bias;
  r ← range 0 256 step;
  mret (slice_from_1 r).

(** [tf.raw_ops.Bucketize]: the position of the first boundary that is
    strictly greater than the value (the kernel's [std::upper_bound]), so a
    value equal to a boundary falls in the bucket above it. A channel value
    is a float32; it is embedded as the rational it denotes, which makes the
    comparison with the integer boundaries exact. *)
Fixpoint Bucketize (input : Q) (bs : list Z) : Z :=
  match bs with
  | [] => 0%Z
  | b :: bs' =>
      if Qle_bool (inject_Z b) input then (1 + Bucketize input bs')%Z else 0%Z
  end.

(** Line 72: [self._quantize = lambda x: Bucketize(input=x, boundaries=boundaries)] *)
Definition _quantize (bs : list Z) (x : Q) : Z := Bucketize x bs.

(** Number of buckets a boundary list cuts the value range into. *)
Definition buckets (bs : list Z) : Z := (Z.of_nat (length bs) + 1)%Z.

Fixpoint strictly_increasing (l : list Z) : bool :=
  match l with
  | [] => true
  | a :: l' =>
      match l' with
      | [] => true
      | b :: _ => (a <? b)%Z && strictly_increasing l'
      end
  end.

(** What the boundary list of a bucket count does: it exists, it is strictly
    increasing and evenly spaced from its step, and it has [d - 1] entries
    exactly when [d] divides 256. *)
Definition boundaries_check (d : Z) : bool :=
  match boundaries d with
  | Ok bs =>
      strictly_increasing bs
      && forallb (fun i : nat => (nth i bs 0%Z =? (Z.of_nat i + 1) * (256 / d))%Z)
                 (seq 0 (length bs))
      && Bool.eqb (Z.of_nat (length bs) =? d - 1)%Z (256 mod d =? 0)%Z
  | Raise _ => false
  end.

(** A pixel of the colour map: its red, green and blue channel values. *)
Definition pixel : Type := (Q * Q * Q)%type.
Definition image : Type := list (list pixel).

Section Preprocess.

(** [tf.image.resize(image, (14,14))], a library call. *)
Variable resize : image -> image.

Definition channel0 (p : pixel) : Q := fst (fst p).
Definition channel1 (p : pixel) : Q := snd (fst p).
Definition channel2 (p : pixel) : Q := snd p.

(** Lines 81-88: the three quantized channels stacked along the last axis,
    together with the image scaled to [0,1] and the label. *)
Definition _preprocess (bs : list Z) (img : image) (label : Z)
  : image * Z * list (list (Z * Z * Z)) :=
  let colormap := resize img in
  let bias :=
    map (map (fun p => (_quantize bs (channel0 p),
                        _quantize bs (channel1 p),
                        _quantize bs (channel2 p)))) colormap in
  (map (map (fun p => (channel0 p / 255, channel1 p / 255, channel2 p / 255)%Q)) img,
   label, bias).

End Preprocess.

(** A 14 x 14 colour map that is white everywhere ([tf.image.resize] to
    (14, 14) leaves an image of that size as it is). *)
Definition white_14 : image := repeat (repeat (255, 255, 255)%Q 14) 14.

End Quantizer.

(** ** Layers with a backward pass, and the gradient-reversal layer *)

Module Autodiff.

(** A tensor is flattened to the list of its entries. The entries are
    integers: the passes below use only sums, products and sign tests. *)
Definition tensor : Type := list Z.

Definition vadd (a b : tensor) : tensor := zip_with Z.add a b.
Definition vmul (a b : tensor) : tensor := zip_with Z.mul a b.
Definition vscale (c : Z) (a : tensor) : tensor := map (Z.mul c) a.
Definition vneg (a : tensor) : tensor := map Z.opp a.
Definition dot (a b : tensor) : Z := fold_right Z.add 0%Z (vmul a b).
Definition zeros (n : nat) : tensor := repeat 0%Z n.

(** The layers a network is chained from. [Dense W b] has one row of [W]
    per output; [Sum] reduces to a scalar, as a loss does. *)
Inductive layer : Type :=
  | Dense (W : list tensor) (b : tensor)
  | Relu
  | Square
  | Sum
  | Identity
  | GradientReversalLayer (lambda_rev : Z)
  | Chain (first second : layer).

(** Modelled from the spec: [model.GradientReversalLayer] ([model.py] is not
    among the sources). Forward: output = input, unchanged. Backward: the
    gradient flowing into the layer's input is the negation, scaled by the
    factor [lambda_rev], of the gradient flowing out. *)
Definition reversal_forward (x : tensor) : tensor := x.
Definition reversal_backward (lambda_rev : Z) (g : tensor) : tensor :=
  vneg (vscale lambda_rev g).

Fixpoint forward (l : layer) (x : tensor) : tensor :=
  match l with
  | Dense W b => vadd (map (fun row => dot row x) W) b
  | Relu => map (Z.max 0) x
  | Square => vmul x x
  | Sum => [fold_right Z.add 0%Z x]
  | Identity => x
  | GradientReversalLayer _ => reversal_forward x
  | Chain f g => forward g (forward f x)
  end.

(** [backward l x g]: the gradient with respect to the input [x] of [l],
    given the gradient [g] with respect to its output (the vector-Jacobian
    product a gradient tape computes, layer by layer, from the loss back). *)
Fixpoint backward (l : layer) (x g : tensor) : tensor :=
  match l with
  | Dense W _ =>
      fold_right (fun rg acc => vadd (vscale (snd rg) (fst rg)) acc)
                 (zeros (length x)) (combine W g)
  | Relu => zip_with (fun xi gi => if (0 <? xi)%Z then gi else 0%Z) x g
  | Square => zip_with (fun xi gi => (2 * xi * gi)%Z) x g
  | Sum => repeat (hd 0%Z g) (length x)
  | Identity => g
  | GradientReversalLayer lambda_rev => reversal_backward lambda_rev g
  | Chain f h => backward f x (backward h (forward f x) g)
  end.

(** [tape.gradient(loss, x)] for a network ending in a scalar loss: the
    backward pass is seeded with 1. *)
Definition gradient (network : layer) (x : tensor) : tensor :=
  backward network x [1%Z].

(** Line 42: [self.gradReverse = model.GradientReversalLayer()], the factor
    left at its default magnitude 1. *)
Definition gradReverse : layer := GradientReversalLayer 1.

(** Line 126 in context: the loss [L] applied to [gradReverse (f x)]. *)
Definition through_reversal (f L : layer) : layer :=
  Chain f (Chain gradReverse L).

(** The same composition with the reversal layer replaced by the identity. *)
Definition through_identity (f L : layer) : layer :=
  Chain f (Chain Identity L).

End Autodiff.

(** ** The cross-entropy of the self-distillation term *)

Module Loss.

#[local] Open Scope R_scope.

Definition rsum (l : list R) : R := fold_right Rplus 0 l.

(** [tf.keras.backend.epsilon()], the fuzz factor, 1e-7 by default. *)
Definition epsilon : R := / 10000000.

(** [tf.clip_by_value(t, lo, hi)]: [maximum(minimum(t, hi), lo)]. *)
Definition clip_by_value (t lo hi : R) : R := Rmax (Rmin t hi) lo.

(** The clipping the loss applies to a predicted probability. *)
Definition clipped (v : R) : R := clip_by_value v epsilon (1 - epsilon).

(** [tf.keras.losses.CategoricalCrossentropy()] on one sample, for
    predictions given as probabilities (the default [from_logits=False]):
    the prediction is rescaled to sum to 1, clipped to
    [[epsilon, 1 - epsilon]], and the loss is [- sum (y_true * log output)].
    The numbers are reals: rounding of the float32 evaluation is not
    modelled. *)
Definition categorical_crossentropy (y_true y_pred : list R) : R :=
  let total := rsum y_pred in
  let output := map (fun v => clipped (v / total)) y_pred in
  - rsum (zip_with (fun t o => t * ln o) y_true output).

(** The loss object called on a batch: the per-sample losses averaged over
    the batch (the default reduction). *)
Definition crossentropy (y_true y_pred : list (list R)) : R :=
  rsum (zip_with categorical_crossentropy y_true y_pred) / INR (length y_true).

(** Shannon entropy (natural logarithm); [0 * ln 0] is 0. *)
Definition entropy (p : list R) : R := - rsum (map (fun v => v * ln v) p).

(** A well-formed probability vector: non-negative entries summing to 1. *)
Definition well_formed (p : list R) : Prop :=
  Forall (fun v => 0 <= v) p /\ rsum p = 1.

(** Lines 109-112 of [_train_step]: each pseudo output against itself, and
    the mean over the three channels. *)
Definition loss_pred_ps_color (pseudo_pred_r pseudo_pred_g pseudo_pred_b : list (list R)) : R :=
  let loss_pseudo_pred_r := crossentropy pseudo_pred_r pseudo_pred_r in
  let loss_pseudo_pred_g := crossentropy pseudo_pred_g pseudo_pred_g in
  let loss_pseudo_pred_b := crossentropy pseudo_pred_b pseudo_pred_b in
  (loss_pseudo_pred_r + loss_pseudo_pred_g + loss_pseudo_pred_b) / 3.

End Loss.

(** ** The trainer: state, training steps, epoch loop, checkpoint restore *)

Module Loop.
Import Py.

(** The options of [main] that the trainer's control flow reads (the
    float-valued ones, [lr] and [loss_lambda], enter only through the
    gradients and the optimizer update, which are parameters below). *)
Record Args : Type := {
  phase : string;
  train_baseline : bool;
  max_epoch : Z;
  batch_size : Z;
  dim_class : Z;
  dim_bias : Z
}.

(** A [tf.int64] variable: [assign_add] wraps around at 64 bits. *)
Definition wrap_int64 (z : Z) : Z := ((z + 2 ^ 63) mod 2 ^ 64 - 2 ^ 63)%Z.
Definition assign_add (v delta : Z) : Z := wrap_int64 (v + delta).

(** What the run writes: summaries, console lines, the final checkpoint. *)
Inductive event : Type :=
  | SummaryTrain (step : Z)
  | SummaryVal (step : Z)
  | PrintEpoch (epoch : Z)
  | PrintTest
  | PrintAvgTest
  | PrintLine (msg : string)
  | CheckpointSaved.

(** The steps at which training summaries were written, in order. *)
Definition train_summaries (tr : list event) : list Z :=
  flat_map (fun ev => match ev with SummaryTrain step => [step] | _ => [] end) tr.

(** The epochs in which a validation summary was written: reading what the
    run wrote from the start, a validation summary belongs to the epoch whose
    console line (line 223) was printed last before it. *)
Definition note_event (st : option Z * list Z) (ev : event) : option Z * list Z :=
  match ev with
  | PrintEpoch epoch => (Some epoch, snd st)
  | SummaryVal _ =>
      match fst st with
      | Some epoch => (fst st, snd st ++ [epoch])
      | None => st
      end
  | _ => st
  end.

Definition validated_epochs (tr : list event) : list Z :=
  snd (fold_left note_event tr (None, [])).

(** The epoch indices [0, 1, ..., n - 1], and the step numbers
    [g + 1, ..., g + k]. *)
Definition epochs_upto (n : Z) : list Z := map Z.of_nat (seq 0 (Z.to_nat n)).
Definition steps_after (g : Z) (k : nat) : list Z :=
  map (fun i : nat => (g + Z.of_nat i)%Z) (seq 1 k).

(** The values a [tf.int64] counter takes over [k] increments from [g]. *)
Fixpoint counter_values (g : Z) (k : nat) : list Z :=
  match k with
  | O => []
  | S k' => assign_add g 1 :: counter_values (assign_add g 1) k'
  end.

Fixpoint counter_after (g : Z) (k : nat) : Z :=
  match k with
  | O => g
  | S k' => counter_after (assign_add g 1) k'
  end.

(** Line 228: [epoch % 5 == 0]. *)
Definition div5 (epoch : Z) : bool := (epoch mod 5 =? 0)%Z.

(** What one epoch writes, from step counter [g], over [k] batches. *)
Definition epoch_out (g : Z) (k : nat) (epoch : Z) : list event :=
  map SummaryTrain (counter_values g k)
  ++ PrintEpoch epoch
     :: (if (epoch mod 5 =? 0)%Z
         then [SummaryVal (counter_after g k); PrintTest] else []).

Section Trainer.

(** The value of a float tensor, a batch [(images, labels, bias)], and the
    archive [np.load] returns. *)
Context {value batch dataset : Type}.

(** A sample after [_preprocess]: (image / 255, label, bias). *)
Definition sample : Type :=
  (Quantizer.image * Z * list (list (Z * Z * Z)))%type.

(** A [tf.keras.optimizers.SGD] with momentum: its iteration count and one
    momentum slot per variable it has updated. *)
Record Optimizer : Type := {
  iterations : Z;
  slots : gmap string value
}.

(** The names of the trainable variables of the four models. *)
Record Models : Type := {
  net : list string;
  pred_net_r : list string;
  pred_net_g : list string;
  pred_net_b : list string
}.

(** The [tf.keras.metrics] accumulators, each as the observations fed to it
    so far (none of them is ever reset). *)
Record Metrics : Type := {
  classifier_loss : list value;
  color_loss : list value;
  mi_loss : list value;
  classifier_accuracy : list value;
  test_classifier_loss : list value;
  test_color_loss : list value;
  test_mi_loss : list value;
  test_classifier_accuracy : list value
}.

Record Trainer : Type := {
  args : Args;
  models : Models;
  variables : gmap string value;
  optimizer : Optimizer;
  optimizer_color : Optimizer;
  global_step : Z;
  global_epoch : Z;
  metrics : Metrics;
  _quantize_boundaries : list Z;
  train_ds : Z -> list batch;
  test_ds : list batch;
  out : list event
}.

Definition with_variables (vs : gmap string value) (t : Trainer) : Trainer :=
  {| args := args t; models := models t; variables := vs;
     optimizer := optimizer t; optimizer_color := optimizer_color t;
     global_step := global_step t; global_epoch := global_epoch t;
     metrics := metrics t; _quantize_boundaries := _quantize_boundaries t;
     train_ds := train_ds t; test_ds := test_ds t; out := out t |}.

Definition with_optimizer (o : Optimizer) (t : Trainer) : Trainer :=
  {| args := args t; models := models t; variables := variables t;
     optimizer := o; optimizer_color := optimizer_color t;
     global_step := global_step t; global_epoch := global_epoch t;
     metrics := metrics t; _quantize_boundaries := _quantize_boundaries t;
     train_ds := train_ds t; test_ds := test_ds t; out := out t |}.

Definition with_optimizer_color (o : Optimizer) (t : Trainer) : Trainer :=
  {| args := args t; models := models t; variables := variables t;
     optimizer := optimizer t; optimizer_color := o;
     global_step := global_step t; global_epoch := global_epoch t;
     metrics := metrics t; _quantize_boundaries := _quantize_boundaries t;
     train_ds := train_ds t; test_ds := test_ds t; out := out t |}.

Definition with_global_step (n : Z) (t : Trainer) : Trainer :=
  {| args := args t; models := models t; variables := variables t;
     optimizer := optimizer t; optimizer_color := optimizer_color t;
     global_step := n; global_epoch := global_epoch t;
     metrics := metrics t; _quantize_boundaries := _quantize_boundaries t;
     train_ds := train_ds t; test_ds := test_ds t; out := out t |}.

Definition with_global_epoch (n : Z) (t : Trainer) : Trainer :=
  {| args := args t; models := models t; variables := variables t;
     optimizer := optimizer t; optimizer_color := optimizer_color t;
     global_step := global_step t; global_epoch := n;
     metrics := metrics t; _quantize_boundaries := _quantize_boundaries t;
     train_ds := train_ds t; test_ds := test_ds t; out := out t |}.

Definition with_metrics (m : Metrics) (t : Trainer) : Trainer :=
  {| args := args t; models := models t; variables := variables t;
     optimizer := optimizer t; optimizer_color := optimizer_color t;
     global_step := global_step t; global_epoch := global_epoch t;
     metrics := m; _quantize_boundaries := _quantize_boundaries t;
     train_ds := train_ds t; test_ds := test_ds t; out := out t |}.

(** Appending to what the run has written so far. *)
Definition emit (e : event) (t : Trainer) : Trainer :=
  {| args := args t; models := models t; variables := variables t;
     optimizer := optimizer t; optimizer_color := optimizer_color t;
     global_step := global_step t; global_epoch := global_epoch t;
     metrics := metrics t; _quantize_boundaries := _quantize_boundaries t;
     train_ds := train_ds t; test_ds := test_ds t; out := out t ++ [e] |}.

(** Feeding one observation to an accumulator. *)
Definition observe_train (lp mi acc : value) (m : Metrics) : Metrics :=
  {| classifier_loss := classifier_loss m ++ [lp];
     color_loss := color_loss m;
     mi_loss := mi_loss m ++ [mi];
     classifier_accuracy := classifier_accuracy m ++ [acc];
     test_classifier_loss := test_classifier_loss m;
     test_color_loss := test_color_loss m;
     test_mi_loss := test_mi_loss m;
     test_classifier_accuracy := test_classifier_accuracy m |}.

Definition observe_baseline (lp acc : value) (m : Metrics) : Metrics :=
  {| classifier_loss := classifier_loss m ++ [lp];
     color_loss := color_loss m;
     mi_loss := mi_loss m;
     classifier_accuracy := classifier_accuracy m ++ [acc];
     test_classifier_loss := test_classifier_loss m;
     test_color_loss := test_color_loss m;
     test_mi_loss := test_mi_loss m;
     test_classifier_accuracy := test_classifier_accuracy m |}.

Definition observe_color (lc : value) (m : Metrics) : Metrics :=
  {| classifier_loss := classifier_loss m;
     color_loss := color_loss m ++ [lc];
     mi_loss := mi_loss m;
     classifier_accuracy := classifier_accuracy m;
     test_classifier_loss := test_classifier_loss m;
     test_color_loss := test_color_loss m;
     test_mi_loss := test_mi_loss m;
     test_classifier_accuracy := test_classifier_accuracy m |}.

Definition observe_test (lp mi lc acc : value) (m : Metrics) : Metrics :=
  {| classifier_loss := classifier_loss m;
     color_loss := color_loss m;
     mi_loss := mi_loss m;
     classifier_accuracy := classifier_accuracy m;
     test_classifier_loss := test_classifier_loss m ++ [lp];
     test_color_loss := test_color_loss m ++ [lc];
     test_mi_loss := test_mi_loss m ++ [mi];
     test_classifier_accuracy := test_classifier_accuracy m ++ [acc] |}.

(** What the trainer calls and [main.py] does not define: TensorFlow, and
    the models of [model.py]. The forward and gradient computations are
    taken as they are when they complete: a computation that raises inside
    the library, in the middle of a step, is not modelled. *)
Class Library : Type := {
  (** [tf.image.resize(image, (14,14))] *)
  resize : Quantizer.image -> Quantizer.image;
  (** The two [tf.data] pipelines of [_preprocess_dataset] applied to a map
      function: the batches that the [epoch]-th iteration over the shuffled
      [train_ds] yields, and the batches of [test_ds]. *)
  train_pipeline : (Quantizer.image -> Z -> sample) -> dataset -> Z -> list batch;
  test_pipeline : (Quantizer.image -> Z -> sample) -> dataset -> list batch;
  (** The forward computations of the models on a batch, as functions of the
      current variable values: the four quantities the steps feed to the
      metrics. *)
  forward_loss_pred : gmap string value -> batch -> value;
  forward_loss_pred_ps_color : gmap string value -> batch -> value;
  forward_loss_pred_color : gmap string value -> batch -> value;
  forward_accuracy : gmap string value -> batch -> value;
  (** [tape.gradient(l, vars)] for the three losses that are differentiated:
      [loss] of pass 1, [loss_pred_color] of pass 2 (through the reversal
      layer) and [loss_pred] of the baseline; one gradient per variable. *)
  grad_loss : gmap string value -> batch -> string -> value;
  grad_loss_pred_color : gmap string value -> batch -> string -> value;
  grad_loss_pred : gmap string value -> batch -> string -> value;
  (** One SGD-with-momentum update of one variable: from the iteration
      count, the variable's momentum slot, the gradient and the variable's
      value, to the new value and the new slot. *)
  sgd_update : Z -> option value -> value -> value -> value * value;
  (** [self.checkpoint.restore(tf.train.latest_checkpoint(ckpt_dir)).expect_partial()]:
      the call itself, whatever it does to the trainer and whether it
      raises. What TensorFlow defers to the moment a variable is created,
      and a failure it may raise then, inside a later step, is not part of
      it. *)
  checkpoint_restore : Trainer -> Trainer * result unit
}.

Context {lib : Library}.

(** [opt.apply_gradients(grads_and_vars)]: every listed variable, and only
    those, is updated in place; the iteration count advances by one. *)
Definition apply_one (ov : Optimizer * gmap string value) (gv : value * string)
  : Optimizer * gmap string value :=
  let '(o, vs) := ov in
  let '(g, name) := gv in
  match vs !! name with
  | Some v =>
      let '(v', m') := sgd_update (iterations o) (slots o !! name) g v in
      ({| iterations := iterations o; slots := <[name := m']> (slots o) |},
       <[name := v']> vs)
  | None => (o, vs)
  end.

Definition apply_gradients (o : Optimizer) (grads_and_vars : list (value * string))
  (vs : gmap string value) : Optimizer * gmap string value :=
  let '(o', vs') := fold_left apply_one grads_and_vars (o, vs) in
  ({| iterations := assign_add (iterations o') 1; slots := slots o' |}, vs').

(** [zip(gradients, vars)] *)
Definition zip {A B : Type} (l : list A) (l' : list B) : list (A * B) := combine l l'.

(** The trainable variables pass 2 differentiates and updates (lines
    138-145). *)
Definition pass2_variables (m : Models) : list string :=
  net m ++ pred_net_r m ++ pred_net_g m ++ pred_net_b m.

(** Lines 100-121 of [_train_step]: pass 1. The gradients of [loss] are taken
    with respect to, and zipped with, [self.net.trainable_variables]. *)
Definition _train_step_pass1 (b : batch) (t : Trainer) : Trainer :=
  let vs := variables t in
  let loss_pred := forward_loss_pred vs b in
  let loss_pred_ps_color := forward_loss_pred_ps_color vs b in
  let accuracy := forward_accuracy vs b in
  let gradients := map (grad_loss vs b) (net (models t)) in
  let '(o, vs') := apply_gradients (optimizer t) (zip gradients (net (models t))) vs in
  let t := with_variables vs' (with_optimizer o t) in
  with_metrics (observe_train loss_pred loss_pred_ps_color accuracy (metrics t)) t.

(** Lines 123-147 of [_train_step]: pass 2, which forwards [self.net] again
    on the variables as pass 1 left them. *)
Definition _train_step_pass2 (b : batch) (t : Trainer) : Trainer :=
  let vs := variables t in
  let loss_pred_color := forward_loss_pred_color vs b in
  let trainable := pass2_variables (models t) in
  let gradients := map (grad_loss_pred_color vs b) trainable in
  let '(o, vs') := apply_gradients (optimizer_color t) (zip gradients trainable) vs in
  let t := with_variables vs' (with_optimizer_color o t) in
  with_metrics (observe_color loss_pred_color (metrics t)) t.

(** Lines 98-148. *)
Definition _train_step (b : batch) (t : Trainer) : Trainer :=
  let t := _train_step_pass1 b t in
  let t := _train_step_pass2 b t in
  with_global_step (assign_add (global_step t) 1) t.

(** Lines 150-160. *)
Definition _train_step_baseline (b : batch) (t : Trainer) : Trainer :=
  let vs := variables t in
  let loss_pred := forward_loss_pred vs b in
  let accuracy := forward_accuracy vs b in
  let gradients := map (grad_loss_pred vs b) (net (models t)) in
  let '(o, vs') := apply_gradients (optimizer t) (zip gradients (net (models t))) vs in
  let t := with_variables vs' (with_optimizer o t) in
  let t := with_metrics (observe_baseline loss_pred accuracy (metrics t)) t in
  with_global_step (assign_add (global_step t) 1) t.

(** Lines 162-185: forward only, into the test-side metrics. *)
Definition _test_step (b : batch) (t : Trainer) : Trainer :=
  let vs := variables t in
  with_metrics
    (observe_test (forward_loss_pred vs b) (forward_loss_pred_ps_color vs b)
                  (forward_loss_pred_color vs b) (forward_accuracy vs b)
                  (metrics t)) t.

(** Lines 187-205: the four scalars of the train (validation) metrics,
    written at [step]. *)
Definition _write_summary_train (step : Z) (t : Trainer) : Trainer :=
  emit (SummaryTrain step) t.
Definition _write_summary_val (step : Z) (t : Trainer) : Trainer :=
  emit (SummaryVal step) t.

(** Methods that may raise: the trainer as it is left, and the outcome. *)
Definition M (A : Type) : Type := Trainer -> Trainer * result A.

Definition lift (f : Trainer -> Trainer) : M unit := fun t => (f t, Ok tt).

Definition and_then {A B : Type} (c : M A) (k : A -> M B) : M B :=
  fun t =>
    match c t with
    | (t', Ok a) => k a t'
    | (t', Raise e) => (t', Raise e)
    end.

(** [try: body / except: handler]: a bare [except] catches every exception;
    the handler runs on the trainer as the failed body left it. *)
Definition try_except {A : Type} (body : M A) (handler : M A) : M A :=
  fun t =>
    match body t with
    | (t', Ok a) => (t', Ok a)
    | (t', Raise _) => handler t'
    end.

(** [for x in l: body] *)
Definition for_each {X : Type} (l : list X) (body : X -> Trainer -> Trainer)
  (t : Trainer) : Trainer :=
  fold_left (fun t x => body x t) l t.

(** Lines 90-92. *)
Definition _restore_checkpoint : M unit :=
  try_except checkpoint_restore
             (lift (emit (PrintLine "Could not restore from checkpoint."))).

(** Lines 94-96. *)
Definition _save_checkpoint : M unit := lift (emit CheckpointSaved).

(** Lines 218-220: the batch loop of one epoch. The summary is written
    inside the loop, after each step, at the step counter as the step left
    it. *)
Definition batch_loop (__train_step : batch -> Trainer -> Trainer)
  (batches : list batch) (t : Trainer) : Trainer :=
  for_each batches
    (fun b t =>
       let t := __train_step b t in
       _write_summary_train (global_step t) t) t.

(** Lines 218-234: the body of the epoch loop of [train]. *)
Definition train_epoch (__train_step : batch -> Trainer -> Trainer) (epoch : Z)
  (t : Trainer) : Trainer :=
  let t := batch_loop __train_step (train_ds t epoch) t in
  let t := with_global_epoch (assign_add (global_epoch t) 1) t in
  let t := emit (PrintEpoch epoch) t in
  if (epoch mod 5 =? 0)%Z then
    let t := for_each (test_ds t) _test_step t in
    let t := _write_summary_val (global_step t) t in
    emit PrintTest t
  else t.

(** Lines 212-215: the step the epoch loop runs. *)
Definition __train_step (baseline : bool) : batch -> Trainer -> Trainer :=
  if baseline then _train_step_baseline else _train_step.

(** Lines 207-237. *)
Definition train : M unit :=
  and_then _restore_checkpoint (fun _ t =>
    match range (global_epoch t) (max_epoch (args t)) 1 with
    | Ok epochs =>
        _save_checkpoint
          (for_each epochs (train_epoch (__train_step (train_baseline (args t)))) t)
    | Raise e => (t, Raise e)
    end).

(** Lines 239-246. *)
Definition test : M unit :=
  and_then _restore_checkpoint (fun _ t =>
    lift (emit PrintAvgTest) (for_each (test_ds t) _test_step t)).

(** Lines 69-79: the boundaries, then the two pipelines mapped through
    [_preprocess]. [loaded] is the outcome of [np.load]. *)
Definition _preprocess_dataset (a : Args) (loaded : result dataset)
  : result (list Z * (Z -> list batch) * list batch) :=
  ds ← loaded;
  boundaries ← Quantizer.boundaries (dim_bias a);
  let _preprocess := Quantizer._preprocess resize boundaries in
  mret (boundaries, train_pipeline _preprocess ds, test_pipeline _preprocess ds).

(** Lines 11-34 and 36-67: [fresh] is what [_build_model] creates, the
    variable names of the four models and their initial values. *)
Definition __init__ (a : Args) (fresh : Models * gmap string value)
  (loaded : result dataset) : result Trainer :=
  let new_optimizer := {| iterations := 0; slots := ∅ |} in
  let new_metrics :=
    {| classifier_loss := []; color_loss := []; mi_loss := [];
       classifier_accuracy := []; test_classifier_loss := [];
       test_color_loss := []; test_mi_loss := [];
       test_classifier_accuracy := [] |} in
  pre ← _preprocess_dataset a loaded;
  mret {| args := a; models := fst fresh; variables := snd fresh;
          optimizer := new_optimizer; optimizer_color := new_optimizer;
          global_step := 0; global_epoch := 0; metrics := new_metrics;
          _quantize_boundaries := fst (fst pre);
          train_ds := snd (fst pre); test_ds := snd pre; out := [] |}.

(** The fields no step writes, and those a training or test step leaves
    alone besides. *)
Definition fixed_setup (t t' : Trainer) : Prop :=
  args t' = args t /\ models t' = models t /\ train_ds t' = train_ds t
  /\ test_ds t' = test_ds t.

Definition same_setup (t t' : Trainer) : Prop :=
  args t' = args t /\ models t' = models t /\ train_ds t' = train_ds t
  /\ test_ds t' = test_ds t /\ global_epoch t' = global_epoch t /\ out t' = out t.

(** How many batches have gone through [_test_step]. *)
Definition test_observations (t : Trainer) : nat :=
  length (test_classifier_loss (metrics t)).

(** A fresh start: the counters at 0, nothing written yet, and no checkpoint
    for the restore to load (it leaves the trainer as it is). *)
Definition fresh_start (t : Trainer) : Prop :=
  global_step t = 0%Z /\ global_epoch t = 0%Z /\ out t = []
  /\ fst (checkpoint_restore t) = t.

(** Running a method of a constructed trainer. *)
Definition run (method : M unit) (t : Trainer) : result Trainer :=
  match method t with
  | (t', Ok _) => Ok t'
  | (_, Raise e) => Raise e
  end.

(** Lines 280-287 of [main]. *)
Definition main (a : Args) (fresh : Models * gmap string value)
  (loaded : result dataset) : result Trainer :=
  trainer ← __init__ a fresh loaded;
  if String.eqb (phase a) "train" then run train trainer
  else if String.eqb (phase a) "test" then run test trainer
  else Raise ValueError.

End Trainer.

Arguments Trainer : clear implicits.
Arguments Library : clear implicits.
Arguments Optimizer : clear implicits.
Arguments Metrics : clear implicits.
Arguments M : clear implicits.
Arguments sample : clear implicits.

End Loop.

(** ** A small concrete trainer, to run the definitions on *)

Module Example.
Import Py Loop.

(** Tensor values are integers, a batch is a number, the archive is empty.
    Every loss is the batch plus the sum of the variables [w] and [p], every
    gradient is 1, and the optimizer subtracts the gradient. *)
Definition read (vs : gmap string Z) (name : string) : Z := default 0%Z (vs !! name).

Definition library (restore : Trainer Z Z -> Trainer Z Z * result unit)
  : Library Z Z unit := {|
  resize := fun img => img;
  train_pipeline := fun _ _ epoch => [epoch; (epoch + 1)%Z];
  test_pipeline := fun _ _ => [7%Z];
  forward_loss_pred := fun vs b => (b + read vs "w")%Z;
  forward_loss_pred_ps_color := fun vs b => read vs "p";
  forward_loss_pred_color := fun vs b => (b + read vs "w" + read vs "p")%Z;
  forward_accuracy := fun _ _ => 1%Z;
  grad_loss := fun _ _ _ => 1%Z;
  grad_loss_pred_color := fun _ _ _ => 1%Z;
  grad_loss_pred := fun _ _ _ => 1%Z;
  sgd_update := fun _ slot g v => ((v - g)%Z, g);
  checkpoint_restore := restore
|}.

(** No checkpoint in [ckpt_dir]: [tf.train.latest_checkpoint] returns
    [None], and restoring from [None] changes nothing and raises nothing. *)
Definition no_checkpoint (t : Trainer Z Z) : Trainer Z Z * result unit := (t, Ok tt).


Definition fresh : Models * gmap string Z :=
  ({| net := ["w"]; pred_net_r := ["p"]; pred_net_g := []; pred_net_b := [] |},
   <["w" := 10%Z]> (<["p" := 20%Z]> ∅)).

(** The trainer [Trainer(args)] constructs from [fresh] when the boundary
    list can be built. *)
Definition trainer (a : Args) : Trainer Z Z :=
  {| args := a; models := fst fresh; variables := snd fresh;
     optimizer := {| iterations := 0; slots := ∅ |};
     optimizer_color := {| iterations := 0; slots := ∅ |};
     global_step := 0; global_epoch := 0;
     metrics := {| classifier_loss := []; color_loss := []; mi_loss := [];
                   classifier_accuracy := []; test_classifier_loss := [];
                   test_color_loss := []; test_mi_loss := [];
                   test_classifier_accuracy := [] |};
     _quantize_boundaries :=
       match Quantizer.boundaries (dim_bias a) with Ok bs => bs | Raise _ => [] end;
     train_ds := fun epoch => [epoch; (epoch + 1)%Z];
     test_ds := [7%Z]; out := [] |}.

Definition options (baseline : bool) (epochs bias : Z) : Args :=
  {| phase := "train"; train_baseline := baseline; max_epoch := epochs;
     batch_size := 128; dim_class := 10; dim_bias := bias |}.

End Example.

(** ** Vocabulary for the further properties *)

Module QuantizerSpec.
Import Py Quantizer.

(** Layout of the boundary list of a bucket count in [1..256], whether or
    not the count divides 256. *)
Definition boundaries_layout (d : Z) : bool :=
  match boundaries d with
  | Ok bs =>
      (Z.of_nat (length bs) =? 255 / (256 / d))%Z
      && (d - 1 <=? Z.of_nat (length bs))%Z
      && strictly_increasing bs
      && forallb (fun b => (0 <? b)%Z && (b <? 256)%Z) bs
      && forallb (fun i : nat => (nth i bs 0%Z =? (Z.of_nat i + 1) * (256 / d))%Z)
                 (seq 0 (length bs))
  | Raise _ => false
  end.

End QuantizerSpec.

Module PreprocessSpec.
Import Quantizer.


(** Every entry of a bias label satisfies [P]. *)
Definition all_labels (P : Z -> Prop) (bias : list (list (Z * Z * Z))) : Prop :=
  Forall (Forall (fun l => P (fst (fst l)) /\ P (snd (fst l)) /\ P (snd l))) bias.

End PreprocessSpec.

Module LoopSpec.
Import Loop.

(** The epoch indices [a, a + 1, ..., b - 1]. *)
Definition epochs_from (a b : Z) : list Z :=
  map (fun i : nat => (a + Z.of_nat i)%Z) (seq 0 (Z.to_nat (b - a))).

(** The number of batches the given epochs iterate over. *)
Definition total_batches {batch : Type} (ds : Z -> list batch) (epochs : list Z) : nat :=
  fold_right (fun epoch n => (length (ds epoch) + n)%nat) 0%nat epochs.

Section Footprints.
Context {value batch : Type}.

(** What a baseline run never writes. *)
Definition untouched_by_baseline (t t' : Trainer value batch) : Prop :=
  (forall name, name ∉ net (models t) -> variables t' !! name = variables t !! name)
  /\ optimizer_color t' = optimizer_color t
  /\ color_loss (metrics t') = color_loss (metrics t)
  /\ mi_loss (metrics t') = mi_loss (metrics t)
  /\ models t' = models t.

(** What evaluation never writes. *)
Definition untouched_by_test (t t' : Trainer value batch) : Prop :=
  variables t' = variables t
  /\ optimizer t' = optimizer t /\ optimizer_color t' = optimizer_color t
  /\ global_step t' = global_step t /\ global_epoch t' = global_epoch t
  /\ classifier_loss (metrics t') = classifier_loss (metrics t)
  /\ color_loss (metrics t') = color_loss (metrics t)
  /\ mi_loss (metrics t') = mi_loss (metrics t)
  /\ classifier_accuracy (metrics t') = classifier_accuracy (metrics t).

(** [l'] is [l] with [n] more observations after it. *)
Definition grows_by (l l' : list value) (n : nat) : Prop :=
  exists new, l' = l ++ new /\ length new = n.

(** The train-side accumulators over a stretch of a run: [n] steps of which
    [c] fed the colour and self-distillation losses. *)
Definition train_metrics_grow (t t' : Trainer value batch) (n c : nat) : Prop :=
  grows_by (classifier_loss (metrics t)) (classifier_loss (metrics t')) n
  /\ grows_by (classifier_accuracy (metrics t)) (classifier_accuracy (metrics t')) n
  /\ grows_by (color_loss (metrics t)) (color_loss (metrics t')) c
  /\ grows_by (mi_loss (metrics t)) (mi_loss (metrics t')) c.

End Footprints.

End LoopSpec.

(** * Properties *)

(** ** Bucket boundaries *)

Section BoundaryFacts.
Import Py Quantizer.
#[local] Open Scope Z_scope.

Lemma floordiv_nonzero (a b : Z) : b <> 0 -> floordiv a b = Ok (a / b).
Proof.
  intros Hb. unfold floordiv.
  destruct (Z.eqb_spec b 0) as [E | _]; [contradiction | reflexivity].
Qed.

Lemma range_zero_step (start stop : Z) : range start stop 0 = Raise ValueError.
Proof. reflexivity. Qed.

Lemma range_nonzero_step (start stop step : Z) :
  step <> 0 -> is_ok (range start stop step) = true.
Proof.
  intros Hs. unfold range.
  destruct (Z.eqb_spec step 0) as [E | _]; [contradiction | reflexivity].
Qed.

Lemma boundaries_above_256 (d : Z) : 256 < d -> boundaries d = Raise ValueError.
Proof.
  intros Hd. unfold boundaries.
  rewrite floordiv_nonzero by lia.
  rewrite Z.div_small by lia. reflexivity.
Qed.

Lemma boundaries_upto_256 (d : Z) : 1 <= d <= 256 -> is_ok (boundaries d) = true.
Proof.
  intros Hd. unfold boundaries.
  rewrite floordiv_nonzero by lia.
  assert (Hstep : 256 / d <> 0).
  { assert (1 <= 256 / d); [| lia].
    apply Z.div_le_lower_bound; lia. }
  cbn [mbind result_bind bind].
  unfold range.
  destruct (Z.eqb_spec (256 / d) 0) as [E | _]; [contradiction | reflexivity].
Qed.

(** A boolean check of a property on every integer of [1..n] transfers to
    each of them. *)
Lemma check_upto (P : Z -> bool) (n : nat) :
  forallb P (map Z.of_nat (seq 1 n)) = true ->
  forall d, 1 <= d <= Z.of_nat n -> P d = true.
Proof.
  intros Hall d Hd.
  rewrite forallb_forall in Hall. apply Hall.
  apply in_map_iff. exists (Z.to_nat d). split; [lia |].
  apply in_seq. lia.
Qed.

Lemma boundaries_check_upto_256 (d : Z) :
  1 <= d <= 256 -> boundaries_check d = true.
Proof.
  apply (check_upto boundaries_check 256). vm_compute. reflexivity.
Qed.

(** For a bucket count that divides 256 the boundary list is as the data
    model describes it. *)
Lemma boundaries_of_divisor (d : Z) :
  1 <= d -> (d | 256) ->
  exists bs, boundaries d = Ok bs
    /\ Z.of_nat (length bs) = d - 1
    /\ strictly_increasing bs = true
    /\ buckets bs = d
    /\ forall i : nat, (i < length bs)%nat -> nth i bs 0 = (Z.of_nat i + 1) * (256 / d).
Proof.
  intros H1 Hdiv.
  assert (Hle : d <= 256) by (apply Z.divide_pos_le; [lia | exact Hdiv]).
  pose proof (boundaries_check_upto_256 d (conj H1 Hle)) as Hc.
  unfold boundaries_check in Hc.
  destruct (boundaries d) as [bs | e]; [| discriminate].
  exists bs. split; [reflexivity |].
  apply andb_prop in Hc. destruct Hc as [Hc Hlen].
  apply andb_prop in Hc. destruct Hc as [Hinc Hsp].
  assert (Hmod : (256 mod d =? 0) = true).
  { apply Z.eqb_eq. apply Z.mod_divide; [lia | exact Hdiv]. }
  rewrite Hmod in Hlen. apply Bool.eqb_prop in Hlen. apply Z.eqb_eq in Hlen.
  repeat split.
  - exact Hlen.
  - exact Hinc.
  - unfold buckets. lia.
  - intros i Hi. rewrite forallb_forall in Hsp.
    apply Z.eqb_eq. apply Hsp. apply in_seq. lia.
Qed.

(** A bucket count in [1..256] that does not divide 256 gets a boundary list
    of another length than [d - 1]. *)
Lemma boundaries_of_non_divisor (d : Z) :
  1 <= d <= 256 -> ~ (d | 256) ->
  exists bs, boundaries d = Ok bs /\ Z.of_nat (length bs) <> d - 1.
Proof.
  intros Hd Hndiv.
  pose proof (boundaries_check_upto_256 d Hd) as Hc.
  unfold boundaries_check in Hc.
  destruct (boundaries d) as [bs | e]; [| discriminate].
  exists bs. split; [reflexivity |].
  apply andb_prop in Hc. destruct Hc as [_ Hlen].
  intros Heq.
  apply Z.eqb_eq in Heq. rewrite Heq in Hlen.
  apply Bool.eqb_prop in Hlen. symmetry in Hlen. apply Z.eqb_eq in Hlen.
  apply Hndiv. apply Z.mod_divide; [lia | exact Hlen].
Qed.

(** C2: at [dim_bias = 3] the boundary list of line 71 is [85; 170; 255]:
    three thresholds, not [dim_bias - 1 = 2], which cut the value range into
    four buckets, not [dim_bias = 3]. *)
Theorem boundaries_dim_bias_3 :
  boundaries 3 = Ok [85; 170; 255]
  /\ Z.of_nat (length [85; 170; 255]) <> 3 - 1
  /\ buckets [85; 170; 255] <> 3.
Proof.
  split; [reflexivity |].
  split; [cbn; lia | unfold buckets; cbn; lia].
Qed.

End BoundaryFacts.

(** ** The quantizer *)

Section QuantizerFacts.
Import Py Quantizer.

Lemma Bucketize_range (x : Q) (bs : list Z) :
  (0 <= Bucketize x bs <= Z.of_nat (length bs))%Z.
Proof.
  induction bs as [| b bs IH]; cbn [Bucketize length].
  - lia.
  - destruct (Qle_bool (inject_Z b) x); lia.
Qed.

Lemma Bucketize_below_first (x : Q) (b : Z) (bs : list Z) :
  (x < inject_Z b)%Q -> Bucketize x (b :: bs) = 0%Z.
Proof.
  intros Hlt. cbn [Bucketize].
  destruct (Qle_bool (inject_Z b) x) eqn:E; [| reflexivity].
  apply Qle_bool_iff in E. exfalso. apply (Qlt_not_le _ _ Hlt E).
Qed.

Lemma strictly_increasing_tail (b : Z) (bs : list Z) :
  strictly_increasing (b :: bs) = true -> strictly_increasing bs = true.
Proof.
  cbn [strictly_increasing]. destruct bs as [| c bs']; [reflexivity |].
  intros H. apply andb_prop in H. exact (proj2 H).
Qed.

Lemma strictly_increasing_head (b : Z) (bs : list Z) (j : nat) :
  strictly_increasing (b :: bs) = true -> (j < length bs)%nat ->
  (b < nth j bs 0)%Z.
Proof.
  revert b bs. induction j as [| j IH]; intros b bs Hinc Hj.
  - destruct bs as [| c bs']; [cbn in Hj; lia |].
    cbn [strictly_increasing] in Hinc. apply andb_prop in Hinc.
    cbn [nth]. apply Z.ltb_lt. exact (proj1 Hinc).
  - destruct bs as [| c bs']; [cbn in Hj; lia |].
    cbn [nth]. cbn [length] in Hj.
    assert (Hbc : (b < c)%Z).
    { cbn [strictly_increasing] in Hinc. apply andb_prop in Hinc.
      apply Z.ltb_lt. exact (proj1 Hinc). }
    pose proof (IH c bs' (strictly_increasing_tail _ _ Hinc) ltac:(lia)).
    lia.
Qed.

(** The bucket of a value is the number of boundaries it has reached: a
    value at or above boundary [i] and below boundary [i + 1] (if there is
    one) is in bucket [i + 1]. In particular a value equal to a boundary
    goes to the bucket above it. *)
Lemma Bucketize_between (bs : list Z) (i : nat) (x : Q) :
  strictly_increasing bs = true ->
  (i < length bs)%nat ->
  (inject_Z (nth i bs 0%Z) <= x)%Q ->
  ((S i < length bs)%nat -> (x < inject_Z (nth (S i) bs 0%Z))%Q) ->
  Bucketize x bs = (Z.of_nat i + 1)%Z.
Proof.
  revert bs. induction i as [| i IH]; intros bs Hinc Hi Hlo Hhi.
  - destruct bs as [| b bs']; [cbn in Hi; lia |].
    cbn [nth] in Hlo. cbn [Bucketize].
    apply Qle_bool_iff in Hlo. rewrite Hlo.
    destruct bs' as [| c bs''].
    + reflexivity.
    + rewrite Bucketize_below_first; [reflexivity |].
      apply Hhi. cbn [length]. lia.
  - destruct bs as [| b bs']; [cbn in Hi; lia |].
    cbn [length] in Hi. cbn [nth] in Hlo.
    assert (Hb : (inject_Z b <= x)%Q).
    { apply Qle_trans with (inject_Z (nth i bs' 0%Z)); [| exact Hlo].
      rewrite <- Zle_Qle.
      pose proof (strictly_increasing_head b bs' i Hinc ltac:(lia)). lia. }
    cbn [Bucketize]. apply Qle_bool_iff in Hb. rewrite Hb.
    rewrite (IH bs').
    + lia.
    + exact (strictly_increasing_tail _ _ Hinc).
    + lia.
    + exact Hlo.
    + intros Hlen. apply Hhi. cbn [length]. lia.
Qed.

(** The quantizer is a function of the value and the boundary list alone,
    and with a bucket count that divides 256 its output is below the
    count. *)
Lemma quantize_range_of_divisor (d : Z) (bs : list Z) (x : Q) :
  (1 <= d)%Z -> (d | 256)%Z -> boundaries d = Ok bs ->
  (0 <= _quantize bs x < d)%Z.
Proof.
  intros H1 Hdiv Hbs.
  destruct (boundaries_of_divisor d H1 Hdiv) as (bs' & Hbs' & Hlen & _).
  rewrite Hbs in Hbs'. injection Hbs' as <-.
  unfold _quantize. pose proof (Bucketize_range x bs). lia.
Qed.

(** The boundary cases of [dim_bias = 4]: 64 is in bucket 1, 255 in bucket
    3 and 0 in bucket 0. *)
Lemma quantize_dim_bias_4 :
  boundaries 4 = Ok [64; 128; 192]%Z
  /\ _quantize [64; 128; 192]%Z 64 = 1%Z
  /\ _quantize [64; 128; 192]%Z 255 = 3%Z
  /\ _quantize [64; 128; 192]%Z 0 = 0%Z.
Proof. repeat split. Qed.

(** C3: at [dim_bias = 3] the channel value 255 is quantized to 3, which is
    not in [[0, dim_bias)]; so is every entry of the bias label that
    [_preprocess] derives from a white image. *)
Theorem quantize_dim_bias_3_out_of_range :
  boundaries 3 = Ok [85; 170; 255]%Z
  /\ _quantize [85; 170; 255]%Z 255 = 3%Z
  /\ ~ (0 <= _quantize [85; 170; 255]%Z 255 < 3)%Z
  /\ snd (_preprocess (fun img => img) [85; 170; 255]%Z white_14 0%Z)
     = repeat (repeat (3, 3, 3)%Z 14) 14.
Proof.
  split; [reflexivity |].
  split; [reflexivity |].
  split; [| vm_compute; reflexivity].
  intros [_ H]. vm_compute in H. discriminate H.
Qed.

End QuantizerFacts.

(** ** Construction of the trainer *)

Section ConstructionFacts.
Import Py Quantizer Loop.
Context {value batch dataset : Type} {lib : Library value batch dataset}.
#[local] Open Scope Z_scope.

Lemma init_raises (a : Args) (fresh : Models * gmap string value) (ds : dataset)
  (e : exception) :
  boundaries (dim_bias a) = Raise e -> __init__ a fresh (Ok ds) = Raise e.
Proof.
  intros Hb. unfold __init__, _preprocess_dataset.
  cbn [mbind result_bind bind]. rewrite Hb. reflexivity.
Qed.

Lemma init_not_ok (a : Args) (fresh : Models * gmap string value)
  (loaded : result dataset) :
  is_ok (boundaries (dim_bias a)) = false -> is_ok (__init__ a fresh loaded) = false.
Proof.
  intros Hb. unfold __init__, _preprocess_dataset.
  destruct loaded as [ds | e]; cbn [mbind result_bind bind is_ok]; [| reflexivity].
  destruct (boundaries (dim_bias a)); [discriminate | reflexivity].
Qed.

(** C10: a bucket count above 256 makes the boundary step [256 // dim_bias]
    zero, [range] raises [ValueError], and so do [Trainer(args)] and [main],
    which therefore never reaches [train]; a bucket count in [1..256] gets
    its boundary list. *)
Theorem dim_bias_above_256_fails (a : Args) (fresh : Models * gmap string value)
  (loaded : result dataset) :
  (256 < dim_bias a ->
     floordiv 256 (dim_bias a) = Ok 0
     /\ boundaries (dim_bias a) = Raise ValueError
     /\ is_ok (__init__ a fresh loaded) = false
     /\ is_ok (main a fresh loaded) = false
     /\ forall ds, loaded = Ok ds ->
          __init__ a fresh loaded = Raise ValueError
          /\ main a fresh loaded = Raise ValueError)
  /\ (1 <= dim_bias a <= 256 -> is_ok (boundaries (dim_bias a)) = true).
Proof.
  split.
  - intros Hd.
    pose proof (boundaries_above_256 _ Hd) as Hb.
    assert (Hinit : is_ok (__init__ a fresh loaded) = false).
    { apply init_not_ok. rewrite Hb. reflexivity. }
    split.
    { rewrite floordiv_nonzero by lia. rewrite Z.div_small by lia. reflexivity. }
    split; [exact Hb |].
    split; [exact Hinit |].
    split.
    + unfold main. destruct (__init__ a fresh loaded); [discriminate | reflexivity].
    + intros ds ->. rewrite (init_raises a fresh ds ValueError Hb).
      split; [reflexivity |].
      unfold main. rewrite (init_raises a fresh ds ValueError Hb). reflexivity.
  - apply boundaries_upto_256.
Qed.

End ConstructionFacts.

Lemma example_trainer_constructed :
  Loop.__init__ (lib := Example.library Example.no_checkpoint)
                (Example.options false 1 16) Example.fresh (Py.Ok tt)
  = Py.Ok (Example.trainer (Example.options false 1 16)).
Proof. reflexivity. Qed.

Lemma dim_bias_above_256_fails_witness :
  Quantizer.boundaries 257 = Py.Raise Py.ValueError
  /\ Py.is_ok (Loop.main (lib := Example.library Example.no_checkpoint)
                 (Example.options false 1 257) Example.fresh (Py.Ok tt)) = false
  /\ Py.is_ok (Quantizer.boundaries 16) = true.
Proof.
  pose proof (dim_bias_above_256_fails
                (lib := Example.library Example.no_checkpoint)
                (Example.options false 1 257) Example.fresh (Py.Ok tt)) as [H257 _].
  pose proof (dim_bias_above_256_fails
                (lib := Example.library Example.no_checkpoint)
                (Example.options false 1 16) Example.fresh (Py.Ok tt)) as [_ H16].
  cbn [Loop.dim_bias Example.options] in H257, H16.
  destruct (H257 ltac:(lia)) as (_ & Hb & _ & Hm & _).
  split; [exact Hb |].
  split; [exact Hm |].
  apply H16. lia.
Defined.

(** ** Gradient reversal *)

Section ReversalFacts.
Import Autodiff.
#[local] Open Scope Z_scope.

Lemma vneg_zeros (n : nat) : vneg (zeros n) = zeros n.
Proof.
  unfold vneg, zeros. induction n as [| n IH]; cbn; [reflexivity |].
  f_equal. exact IH.
Qed.

Lemma vscale_one (g : tensor) : vscale 1 g = g.
Proof.
  unfold vscale. induction g as [| a g IH]; cbn [map]; [reflexivity |].
  rewrite IH. f_equal. lia.
Qed.

Lemma vscale_opp (c : Z) (a : tensor) : vscale (- c) a = vneg (vscale c a).
Proof.
  unfold vscale, vneg. induction a as [| v a IH]; cbn [map]; [reflexivity |].
  rewrite IH. f_equal. lia.
Qed.

Lemma vscale_vneg (c : Z) (a : tensor) : vscale c (vneg a) = vneg (vscale c a).
Proof.
  unfold vscale, vneg. induction a as [| v a IH]; cbn [map]; [reflexivity |].
  rewrite IH. f_equal. lia.
Qed.

Lemma vadd_vneg (a b : tensor) : vadd (vneg a) (vneg b) = vneg (vadd a b).
Proof.
  unfold vadd, vneg. revert b.
  induction a as [| v a IH]; intros [| w b]; cbn; try reflexivity.
  rewrite IH. f_equal. lia.
Qed.

(** A pointwise backward rule that is odd in the incoming gradient. *)
Lemma zip_with_odd (k : Z -> Z -> Z) (x g : tensor) :
  (forall xi gi, k xi (- gi) = - k xi gi) ->
  zip_with k x (vneg g) = vneg (zip_with k x g).
Proof.
  intros Hodd. unfold vneg. revert g.
  induction x as [| xi x IH]; intros [| gi g]; cbn; try reflexivity.
  rewrite IH, Hodd. reflexivity.
Qed.

Lemma dense_backward_odd (W : list tensor) (g : tensor) (n : nat) :
  fold_right (fun rg acc => vadd (vscale (snd rg) (fst rg)) acc)
             (zeros n) (combine W (vneg g))
  = vneg (fold_right (fun rg acc => vadd (vscale (snd rg) (fst rg)) acc)
                     (zeros n) (combine W g)).
Proof.
  revert g. induction W as [| row W IH]; intros g.
  - cbn. symmetry. apply vneg_zeros.
  - destruct g as [| gi g].
    + cbn. symmetry. apply vneg_zeros.
    + change (vneg (gi :: g)) with (- gi :: vneg g).
      cbn [combine fold_right fst snd].
      rewrite IH, vscale_opp. apply vadd_vneg.
Qed.

(** The backward pass of every layer, and so of every chain of layers, is
    odd in the gradient it receives. *)
Lemma backward_odd (l : layer) :
  forall x g, backward l x (vneg g) = vneg (backward l x g).
Proof.
  induction l as [W b | | | | | lam | f IHf h IHh]; intros x g; cbn [backward].
  - apply dense_backward_odd.
  - apply zip_with_odd. intros xi gi. destruct (0 <? xi); lia.
  - apply zip_with_odd. intros xi gi. lia.
  - destruct g as [| gi g]; cbn [vneg map hd].
    + change (- 0) with 0. symmetry. apply (vneg_zeros (length x)).
    + unfold vneg. generalize (length x) as n.
      induction n as [| n IH]; cbn; [reflexivity | rewrite IH; reflexivity].
  - reflexivity.
  - unfold reversal_backward. rewrite vscale_vneg. reflexivity.
  - rewrite IHh, IHf. reflexivity.
Qed.

Lemma reversal_layer_passes (x g : tensor) :
  forward gradReverse x = x /\ backward gradReverse x g = vneg g.
Proof.
  split; [reflexivity |].
  cbn [backward gradReverse]. unfold reversal_backward.
  rewrite vscale_one. reflexivity.
Qed.

Example reversal_on_a_dense_layer :
  let f := Dense [[1; 2]; [3; 4]] [0; 0] in
  let L := Chain Square Sum in
  forward (through_reversal f L) [1; 1] = [58]
  /\ gradient (through_identity f L) [1; 1] = [48; 68]
  /\ gradient (through_reversal f L) [1; 1] = [-48; -68].
Proof. repeat split. Qed.

(** C1: the reversal layer returns its input unchanged, so a network
    evaluates to the same output with it as with the identity in its place;
    and the gradient of a scalar loss [L (reverse (f x))] with respect to [x]
    is the negation of the gradient of [L (identity (f x))]. *)
Theorem gradient_reversal (f L : layer) (x : tensor) :
  forward gradReverse (forward f x) = forward f x
  /\ forward (through_reversal f L) x = forward (through_identity f L) x
  /\ gradient (through_reversal f L) x = vneg (gradient (through_identity f L) x).
Proof.
  split; [reflexivity |].
  split; [reflexivity |].
  unfold gradient, through_reversal, through_identity.
  cbn [backward forward gradReverse reversal_forward].
  unfold reversal_backward. rewrite vscale_one.
  apply backward_odd.
Qed.

End ReversalFacts.

(** ** The self-distillation loss *)

Section LossFacts.
Import Loss.
#[local] Open Scope R_scope.

Lemma epsilon_small : 0 < epsilon < / 2.
Proof. unfold epsilon. lra. Qed.




Lemma clipped_inside (v : R) : epsilon <= v <= 1 - epsilon -> clipped v = v.
Proof.
  intros Hv. unfold clipped, clip_by_value, Rmax, Rmin.
  repeat destruct (Rle_dec _ _); lra.
Qed.


Lemma clipped_high (v : R) : 1 - epsilon <= v -> clipped v = 1 - epsilon.
Proof.
  pose proof epsilon_small.
  intros Hv. unfold clipped, clip_by_value, Rmax, Rmin.
  repeat destruct (Rle_dec _ _); lra.
Qed.

Lemma zip_with_self_map {A B C : Type} (k : A -> B -> C) (g : A -> B) (l : list A) :
  zip_with k l (map g l) = map (fun a => k a (g a)) l.
Proof. induction l as [| a l IH]; cbn; [reflexivity | rewrite IH; reflexivity]. Qed.

Lemma crossentropy_self (p : list R) :
  rsum p = 1 ->
  categorical_crossentropy p p = - rsum (map (fun v => v * ln (clipped v)) p).
Proof.
  intros Hsum. unfold categorical_crossentropy. rewrite Hsum.
  rewrite zip_with_self_map. f_equal. f_equal.
  apply map_ext. intros v. unfold clipped. rewrite Rdiv_1_r. reflexivity.
Qed.









Lemma crossentropy_self_unclipped (p : list R) :
  well_formed p -> Forall (fun v => epsilon <= v <= 1 - epsilon) p ->
  categorical_crossentropy p p = entropy p.
Proof.
  intros [_ Hsum] Hin. rewrite crossentropy_self by exact Hsum.
  unfold entropy. f_equal. f_equal. clear Hsum.
  induction Hin as [| v p Hv _ IH]; cbn [map]; [reflexivity |].
  rewrite IH, clipped_inside by exact Hv. reflexivity.
Qed.




(** The tolerance is needed: on the probability vector (1, 0) the entropy
    is 0 and the loss of the vector against itself is
    [- ln (1 - epsilon)], which is positive (about 1e-7). *)
Lemma crossentropy_self_differs_from_entropy :
  well_formed [1; 0]
  /\ categorical_crossentropy [1; 0] [1; 0] <> entropy [1; 0].
Proof.
  pose proof epsilon_small as He.
  split.
  - split; [repeat constructor; lra | cbn; lra].
  - rewrite crossentropy_self by (cbn; lra).
    unfold entropy. cbn [map rsum fold_right].
    rewrite clipped_high by lra. rewrite ln_1, !Rmult_0_l.
    assert (ln (1 - epsilon) < 0).
    { rewrite <- ln_1. apply ln_increasing; lra. }
    lra.
Qed.

End LossFacts.

Section LossWitness.
#[local] Open Scope R_scope.


End LossWitness.

(** ** Training steps, the epoch loop and the checkpoint restore *)

Section StepFacts.
Import Py Loop.
Context {value batch dataset : Type} {lib : Library value batch dataset}.
#[local] Open Scope Z_scope.

Lemma wrap_int64_small (z : Z) : - 2 ^ 63 <= z < 2 ^ 63 -> wrap_int64 z = z.
Proof.
  intros Hz. unfold wrap_int64.
  rewrite Z.mod_small by lia. lia.
Qed.

Lemma assign_add_small (v : Z) : 0 <= v -> v + 1 < 2 ^ 63 -> assign_add v 1 = v + 1.
Proof. intros H0 H1. unfold assign_add. apply wrap_int64_small. lia. Qed.

(** Splitting a step at its [apply_gradients] calls. *)
Ltac split_updates :=
  repeat match goal with
         | |- context [apply_gradients ?o ?g ?v] => destruct (apply_gradients o g v)
         end.

Lemma train_step_setup (baseline : bool) (b : batch) (t : Trainer value batch) :
  same_setup t (__train_step baseline b t).
Proof.
  destruct baseline; cbn [__train_step];
    unfold _train_step_baseline, _train_step, _train_step_pass2, _train_step_pass1;
    split_updates; repeat split.
Qed.

Lemma train_step_global_step (baseline : bool) (b : batch) (t : Trainer value batch) :
  global_step (__train_step baseline b t) = assign_add (global_step t) 1.
Proof.
  destruct baseline; cbn [__train_step];
    unfold _train_step_baseline, _train_step, _train_step_pass2, _train_step_pass1;
    split_updates; reflexivity.
Qed.

Lemma for_each_cons {X : Type} (x : X) (l : list X)
  (body : X -> Trainer value batch -> Trainer value batch) (t : Trainer value batch) :
  for_each (x :: l) body t = for_each l body (body x t).
Proof. reflexivity. Qed.

Lemma counter_after_small (k : nat) :
  forall g, 0 <= g -> g + Z.of_nat k < 2 ^ 63 -> counter_after g k = g + Z.of_nat k.
Proof.
  induction k as [| k IH]; intros g H0 Hlt.
  - cbn. lia.
  - cbn [counter_after]. rewrite assign_add_small by lia.
    rewrite IH by lia. lia.
Qed.

Lemma counter_values_length (g : Z) (k : nat) : length (counter_values g k) = k.
Proof.
  revert g. induction k as [| k IH]; intros g; cbn; [reflexivity |].
  rewrite IH. reflexivity.
Qed.

Lemma counter_values_small (g : Z) (k : nat) :
  0 <= g -> g + Z.of_nat k < 2 ^ 63 -> counter_values g k = steps_after g k.
Proof.
  unfold steps_after. revert g. induction k as [| k IH]; intros g H0 Hlt.
  - reflexivity.
  - cbn [counter_values seq map]. rewrite assign_add_small by lia.
    rewrite IH by lia. f_equal.
    rewrite <- (seq_shift k 1), map_map. apply map_ext. intros i. lia.
Qed.

(** The counter over the steps of one pass over [batches]. *)
Lemma steps_global_step (baseline : bool) (batches : list batch) :
  forall t : Trainer value batch,
    global_step (for_each batches (__train_step baseline) t)
    = counter_after (global_step t) (length batches).
Proof.
  induction batches as [| b batches IH]; intros t.
  - reflexivity.
  - rewrite for_each_cons, IH, train_step_global_step. reflexivity.
Qed.

(** C5: from a counter at 0, after the [N] training steps of a pass over
    [N] batches the global step counter is [N], whether the steps are the
    two-pass [_train_step] or the baseline ([N] within the range of the
    [tf.int64] counter). *)
Theorem global_step_counts_steps (baseline : bool) (batches : list batch)
  (t : Trainer value batch) :
  global_step t = 0 ->
  Z.of_nat (length batches) < 2 ^ 63 ->
  global_step (for_each batches (__train_step baseline) t)
  = Z.of_nat (length batches).
Proof.
  intros Hfresh Hrange.
  rewrite steps_global_step, Hfresh.
  rewrite counter_after_small by lia. lia.
Qed.

(** ** Pass 1 *)

Lemma apply_one_frame (o : Optimizer value) (vs : gmap string value)
  (gv : value * string) (name : string) :
  name <> snd gv -> snd (apply_one (o, vs) gv) !! name = vs !! name.
Proof.
  intros Hne. destruct gv as [g n]. cbn [snd] in Hne. cbn [apply_one].
  destruct (vs !! n) as [v |] eqn:E; [| reflexivity].
  destruct (sgd_update _ _ g v) as [v' m']. cbn [snd].
  apply lookup_insert_ne. congruence.
Qed.

Lemma fold_apply_one_frame (gvs : list (value * string)) (name : string) :
  forall (o : Optimizer value) (vs : gmap string value),
    name ∉ map snd gvs ->
    snd (fold_left apply_one gvs (o, vs)) !! name = vs !! name.
Proof.
  induction gvs as [| gv gvs IH]; intros o vs Hnot.
  - reflexivity.
  - cbn [fold_left]. cbn [map] in Hnot.
    apply not_elem_of_cons in Hnot. destruct Hnot as [Hne Hnot].
    destruct (apply_one (o, vs) gv) as [o1 vs1] eqn:E.
    rewrite IH by exact Hnot.
    pose proof (apply_one_frame o vs gv name Hne) as Hf.
    rewrite E in Hf. exact Hf.
Qed.

Lemma apply_gradients_frame (o : Optimizer value) (gvs : list (value * string))
  (vs : gmap string value) (name : string) :
  name ∉ map snd gvs -> snd (apply_gradients o gvs vs) !! name = vs !! name.
Proof.
  intros Hnot. unfold apply_gradients.
  pose proof (fold_apply_one_frame gvs name o vs Hnot) as Hf.
  destruct (fold_left apply_one gvs (o, vs)) as [o' vs']. exact Hf.
Qed.

Lemma zip_names (gs : list value) (names : list string) (name : string) :
  name ∉ names -> name ∉ map snd (zip gs names).
Proof.
  intros Hnot Hin. apply Hnot. unfold zip in Hin.
  apply list_elem_of_In in Hin. apply list_elem_of_In.
  apply in_map_iff in Hin. destruct Hin as ([g n] & <- & Hin).
  apply in_combine_r in Hin. exact Hin.
Qed.

Lemma pass1_variables (b : batch) (t : Trainer value batch) :
  variables (_train_step_pass1 b t)
  = snd (apply_gradients (optimizer t)
           (zip (map (grad_loss (variables t) b) (net (models t))) (net (models t)))
           (variables t)).
Proof.
  unfold _train_step_pass1. split_updates. reflexivity.
Qed.

Lemma pass1_frame (b : batch) (t : Trainer value batch) (name : string) :
  name ∉ net (models t) ->
  variables (_train_step_pass1 b t) !! name = variables t !! name.
Proof.
  intros Hnot. rewrite pass1_variables.
  apply apply_gradients_frame, zip_names, Hnot.
Qed.

(** C6: pass 1 applies gradients to the variables of [self.net] only: a
    variable that is not one of them keeps its value, so the variables of
    the three predictors (which are none of the net's) are unchanged by
    pass 1, and the optimizer of pass 2 is not touched. *)
Theorem pass1_updates_net_only (b : batch) (t : Trainer value batch) :
  (forall name, name ∈ pred_net_r (models t) ++ pred_net_g (models t) ++ pred_net_b (models t) ->
                name ∉ net (models t)) ->
  (forall name, name ∈ pred_net_r (models t) ++ pred_net_g (models t) ++ pred_net_b (models t) ->
                variables (_train_step_pass1 b t) !! name = variables t !! name)
  /\ (forall name, name ∉ net (models t) ->
                   variables (_train_step_pass1 b t) !! name = variables t !! name)
  /\ optimizer_color (_train_step_pass1 b t) = optimizer_color t.
Proof.
  intros Hdisjoint. split; [| split].
  - intros name Hin. apply pass1_frame, Hdisjoint, Hin.
  - intros name Hnot. apply pass1_frame, Hnot.
  - unfold _train_step_pass1. split_updates. reflexivity.
Qed.


(** ** The epoch loop *)

Lemma train_step_test_observations (baseline : bool) (b : batch) (t : Trainer value batch) :
  test_observations (__train_step baseline b t) = test_observations t.
Proof.
  destruct baseline; cbn [__train_step];
    unfold _train_step_baseline, _train_step, _train_step_pass2, _train_step_pass1;
    split_updates; reflexivity.
Qed.

Lemma summary_after_step (baseline : bool) (b : batch) (t : Trainer value batch) :
  let t1 := __train_step baseline b t in
  let t' := _write_summary_train (global_step t1) t1 in
  out t' = out t ++ [SummaryTrain (assign_add (global_step t) 1)]
  /\ global_step t' = assign_add (global_step t) 1
  /\ global_epoch t' = global_epoch t
  /\ test_observations t' = test_observations t
  /\ fixed_setup t t'.
Proof.
  cbn zeta.
  destruct (train_step_setup baseline b t) as (Ha & Hm & Htr & Hte & Hep & Hout).
  pose proof (train_step_global_step baseline b t) as Hg.
  pose proof (train_step_test_observations baseline b t) as Hobs.
  unfold _write_summary_train, fixed_setup, test_observations in *.
  cbn [emit out global_step global_epoch args models train_ds test_ds metrics].
  rewrite Hout, Hg. repeat split; assumption.
Qed.

Lemma batch_loop_spec (baseline : bool) (batches : list batch) :
  forall t : Trainer value batch,
    let t' := batch_loop (__train_step baseline) batches t in
    out t' = out t ++ map SummaryTrain (counter_values (global_step t) (length batches))
    /\ global_step t' = counter_after (global_step t) (length batches)
    /\ global_epoch t' = global_epoch t
    /\ test_observations t' = test_observations t
    /\ fixed_setup t t'.
Proof.
  induction batches as [| b batches IH]; intros t.
  - cbn. rewrite app_nil_r. repeat split.
  - cbn zeta. unfold batch_loop. rewrite for_each_cons.
    destruct (summary_after_step baseline b t)
      as (Hout1 & Hg1 & Hep1 & Hobs1 & Ha1 & Hm1 & Htr1 & Hte1).
    set (t1 := _write_summary_train (global_step (__train_step baseline b t))
                                    (__train_step baseline b t)) in *.
    destruct (IH t1) as (Hout & Hstep & Hepoch & Hobs & Ha & Hm & Htr & Hte).
    unfold batch_loop in *.
    cbn [length counter_values counter_after map].
    split; [rewrite Hout, Hout1, Hg1, <- app_assoc; reflexivity |].
    split; [rewrite Hstep, Hg1; reflexivity |].
    split; [congruence |].
    split; [congruence |].
    unfold fixed_setup. repeat split; congruence.
Qed.

Lemma test_loop_spec (batches : list batch) :
  forall t : Trainer value batch,
    let t' := for_each batches _test_step t in
    out t' = out t /\ global_step t' = global_step t
    /\ global_epoch t' = global_epoch t
    /\ variables t' = variables t
    /\ test_observations t' = (test_observations t + length batches)%nat
    /\ fixed_setup t t'.
Proof.
  induction batches as [| b batches IH]; intros t.
  - cbn. repeat split. lia.
  - rewrite for_each_cons.
    destruct (IH (_test_step b t)) as (Ho & Hs & He & Hv & Hobs & Ha & Hm & Htr & Hte).
    cbn zeta. rewrite Ho, Hs, He, Hv, Hobs.
    unfold fixed_setup. rewrite Ha, Hm, Htr, Hte.
    unfold test_observations, _test_step. cbn.
    rewrite length_app. cbn [length]. repeat split. lia.
Qed.

Lemma train_epoch_spec (baseline : bool) (epoch : Z) (t : Trainer value batch) :
  let k := length (train_ds t epoch) in
  let t' := train_epoch (__train_step baseline) epoch t in
  out t' = out t ++ epoch_out (global_step t) k epoch
  /\ global_step t' = counter_after (global_step t) k
  /\ global_epoch t' = assign_add (global_epoch t) 1
  /\ test_observations t'
     = (test_observations t
        + if (epoch mod 5 =? 0)%Z then length (test_ds t) else 0)%nat
  /\ fixed_setup t t'.
Proof.
  cbn zeta. unfold train_epoch. lazy zeta.
  destruct (batch_loop_spec baseline (train_ds t epoch) t)
    as (Hout & Hstep & Hepoch & Hobs & Ha & Hm & Htr & Hte).
  set (t1 := batch_loop (__train_step baseline) (train_ds t epoch) t) in *.
  set (t2 := emit (PrintEpoch epoch) (with_global_epoch (assign_add (global_epoch t1) 1) t1)).
  assert (H2 : out t2 = out t1 ++ [PrintEpoch epoch]
               /\ global_step t2 = global_step t1
               /\ global_epoch t2 = assign_add (global_epoch t1) 1
               /\ test_observations t2 = test_observations t1
               /\ fixed_setup t1 t2) by (repeat split).
  clearbody t2. destruct H2 as (Hout2 & Hg2 & Hep2 & Hobs2 & Ha2 & Hm2 & Htr2 & Hte2).
  unfold epoch_out.
  destruct (epoch mod 5 =? 0).
  - destruct (test_loop_spec (test_ds t2) t2)
      as (Ho3 & Hs3 & He3 & _ & Hobs3 & Ha3 & Hm3 & Htr3 & Hte3).
    set (t3 := for_each (test_ds t2) _test_step t2) in *.
    assert (H4 : forall s (u : Trainer value batch),
               out (emit PrintTest (_write_summary_val s u)) = out u ++ [SummaryVal s; PrintTest]).
    { intros s u. cbn. rewrite <- app_assoc. reflexivity. }
    split.
    { rewrite H4, Ho3, Hs3, Hout2, Hg2, Hout, Hstep, <- !app_assoc. reflexivity. }
    change (global_step (emit PrintTest (_write_summary_val (global_step t3) t3)))
      with (global_step t3).
    change (global_epoch (emit PrintTest (_write_summary_val (global_step t3) t3)))
      with (global_epoch t3).
    change (test_observations (emit PrintTest (_write_summary_val (global_step t3) t3)))
      with (test_observations t3).
    split; [congruence |].
    split; [congruence |].
    split; [rewrite Hobs3, Hobs2, Hobs, Hte2, Hte; reflexivity |].
    unfold fixed_setup.
    change (args (emit PrintTest (_write_summary_val (global_step t3) t3))) with (args t3).
    change (models (emit PrintTest (_write_summary_val (global_step t3) t3))) with (models t3).
    change (train_ds (emit PrintTest (_write_summary_val (global_step t3) t3))) with (train_ds t3).
    change (test_ds (emit PrintTest (_write_summary_val (global_step t3) t3))) with (test_ds t3).
    repeat split; congruence.
  - split; [rewrite Hout2, Hout, <- app_assoc; reflexivity |].
    split; [congruence |].
    split; [congruence |].
    split; [rewrite Nat.add_0_r; congruence |].
    unfold fixed_setup. repeat split; congruence.
Qed.


Lemma range_from_0 (n : Z) : range 0 n 1 = Ok (epochs_upto n).
Proof.
  unfold range, epochs_upto, range_len. cbn [Z.eqb Z.ltb Z.compare].
  f_equal.
  assert (Hlen : Z.to_nat (if 0 <? n then (n - 0 - 1) / 1 + 1 else 0) = Z.to_nat n).
  { destruct (Z.ltb_spec 0 n); [rewrite Z.div_1_r |]; lia. }
  rewrite Hlen. apply map_ext. intros i. lia.
Qed.

Lemma range_step_1_ok (a b : Z) : exists l, range a b 1 = Ok l.
Proof. unfold range. cbn [Z.eqb]. eexists. reflexivity. Qed.

(** The restore never raises: either it went through, or the warning is
    printed on the trainer as the failed restore left it. *)
Lemma restore_checkpoint_cases (t : Trainer value batch) :
  _restore_checkpoint t
  = (match snd (checkpoint_restore t) with
     | Ok _ => fst (checkpoint_restore t)
     | Raise _ =>
         emit (PrintLine "Could not restore from checkpoint.")
              (fst (checkpoint_restore t))
     end, Ok tt).
Proof.
  unfold _restore_checkpoint, try_except, lift.
  destruct (checkpoint_restore t) as [t1 [[] | e]]; reflexivity.
Qed.

Lemma train_from_restored (t : Trainer value batch) :
  let t1 := fst (_restore_checkpoint t) in
  forall epochs,
    range (global_epoch t1) (max_epoch (args t1)) 1 = Ok epochs ->
    train t
    = (emit CheckpointSaved
         (for_each epochs
            (train_epoch (__train_step (train_baseline (args t1)))) t1),
       Ok tt).
Proof.
  cbn zeta. intros epochs Hr. unfold train, and_then.
  rewrite restore_checkpoint_cases in *. cbn [fst] in *.
  rewrite Hr. reflexivity.
Qed.

Lemma notes_train_summaries (ks : list Z) (st : option Z * list Z) :
  fold_left note_event (map SummaryTrain ks) st = st.
Proof.
  revert st. induction ks as [| k ks IH]; intros st; [reflexivity |].
  cbn [map fold_left note_event]. apply IH.
Qed.

Lemma notes_epoch_out (g : Z) (k : nat) (epoch : Z) (st : option Z * list Z) :
  fold_left note_event (epoch_out g k epoch) st
  = (Some epoch, snd st ++ if div5 epoch then [epoch] else []).
Proof.
  unfold epoch_out, div5. rewrite fold_left_app, notes_train_summaries.
  destruct (epoch mod 5 =? 0); cbn [fold_left note_event fst snd].
  - reflexivity.
  - rewrite app_nil_r. reflexivity.
Qed.

Lemma train_summaries_app (a b : list event) :
  train_summaries (a ++ b) = train_summaries a ++ train_summaries b.
Proof. unfold train_summaries. apply flat_map_app. Qed.

Lemma train_summaries_map (ks : list Z) : train_summaries (map SummaryTrain ks) = ks.
Proof.
  unfold train_summaries.
  induction ks as [| k ks IH]; [reflexivity |].
  cbn [map flat_map app]. rewrite IH. reflexivity.
Qed.

Lemma train_summaries_epoch_out (g : Z) (k : nat) (epoch : Z) :
  train_summaries (epoch_out g k epoch) = counter_values g k.
Proof.
  unfold epoch_out. rewrite train_summaries_app, train_summaries_map.
  destruct (epoch mod 5 =? 0); cbn; apply app_nil_r.
Qed.

(** The epoch loop of [train] (lines 217-234). *)
Lemma epoch_loop_spec (baseline : bool) (epochs : list Z) :
  forall t : Trainer value batch,
    let t' := for_each epochs (train_epoch (__train_step baseline)) t in
    snd (fold_left note_event (out t') (None, []))
    = snd (fold_left note_event (out t) (None, [])) ++ List.filter div5 epochs
    /\ global_epoch t' = counter_after (global_epoch t) (length epochs)
    /\ test_observations t'
       = (test_observations t + length (List.filter div5 epochs) * length (test_ds t))%nat
    /\ fixed_setup t t'.
Proof.
  induction epochs as [| epoch epochs IH]; intros t.
  - cbn. rewrite app_nil_r. repeat split. lia.
  - cbn zeta. rewrite for_each_cons.
    destruct (train_epoch_spec baseline epoch t)
      as (Hout1 & _ & Hep1 & Hobs1 & Ha1 & Hm1 & Htr1 & Hte1).
    set (t1 := train_epoch (__train_step baseline) epoch t) in *.
    destruct (IH t1) as (Hn & Hep & Hobs & Ha & Hm & Htr & Hte).
    split.
    { rewrite Hn, Hout1, fold_left_app, notes_epoch_out. cbn [snd List.filter].
      rewrite <- app_assoc. destruct (div5 epoch); reflexivity. }
    split; [rewrite Hep, Hep1; reflexivity |].
    split.
    { rewrite Hobs, Hobs1, Hte1. cbn [List.filter]. fold (div5 epoch).
      destruct (div5 epoch); cbn [length]; lia. }
    unfold fixed_setup. repeat split; congruence.
Qed.

(** C7 (as amended): within an epoch a training summary is written after
    every training step, one per batch and tagged with the step counter as
    that step left it, all of them before the epoch's console line; the
    epoch counter is incremented once per epoch, after the epoch's
    batches. *)
Theorem training_summary_after_every_step (baseline : bool) (epoch : Z)
  (t : Trainer value batch) :
  let k := length (train_ds t epoch) in
  let t' := train_epoch (__train_step baseline) epoch t in
  out t' = out t
           ++ map SummaryTrain (counter_values (global_step t) k)
           ++ PrintEpoch epoch
              :: (if epoch mod 5 =? 0
                  then [SummaryVal (counter_after (global_step t) k); PrintTest]
                  else [])
  /\ train_summaries (out t') = train_summaries (out t) ++ counter_values (global_step t) k
  /\ length (counter_values (global_step t) k) = k
  /\ global_step t' = counter_after (global_step t) k
  /\ global_epoch t' = assign_add (global_epoch t) 1.
Proof.
  cbn zeta.
  destruct (train_epoch_spec baseline epoch t) as (Hout & Hstep & Hep & _).
  split; [exact Hout |].
  split; [rewrite Hout, train_summaries_app, train_summaries_epoch_out; reflexivity |].
  split; [apply counter_values_length |].
  split; assumption.
Qed.

(** C8: from a fresh start, the epochs in which [train] writes a validation
    summary are exactly the epoch indices below [max_epoch] that are
    divisible by 5 (0 included), and each of them puts every batch of the
    held-out set through [_test_step] once. *)
Theorem validation_every_fifth_epoch (t : Trainer value batch) :
  fresh_start t ->
  validated_epochs (out (fst (train t)))
  = List.filter div5 (epochs_upto (max_epoch (args t)))
  /\ test_observations (fst (train t))
     = (test_observations t
        + length (List.filter div5 (epochs_upto (max_epoch (args t))))
          * length (test_ds t))%nat.
Proof.
  intros (Hstep & Hepoch & Hout & Hrestore).
  set (t1 := fst (_restore_checkpoint t)).
  assert (H1 : args t1 = args t /\ global_epoch t1 = 0 /\ test_ds t1 = test_ds t
               /\ test_observations t1 = test_observations t
               /\ fold_left note_event (out t1) (None, []) = (None, [])).
  { unfold t1. rewrite restore_checkpoint_cases. cbn [fst]. rewrite Hrestore.
    destruct (snd (checkpoint_restore t)); cbn [emit args global_epoch test_ds out];
      rewrite Hout; repeat split; assumption. }
  destruct H1 as (Ha1 & Hep1 & Hte1 & Hobs1 & Hn1).
  pose proof (train_from_restored t (epochs_upto (max_epoch (args t)))) as Htrain.
  cbn zeta in Htrain. fold t1 in Htrain. rewrite Hep1, Ha1 in Htrain.
  rewrite (Htrain (range_from_0 _)). cbn [fst].
  destruct (epoch_loop_spec (train_baseline (args t)) (epochs_upto (max_epoch (args t))) t1)
    as (Hn & _ & Hobs & _).
  set (t2 := for_each _ _ t1) in *.
  split.
  - unfold validated_epochs. cbn [emit out]. rewrite fold_left_app.
    cbn [fold_left note_event]. rewrite Hn, Hn1. reflexivity.
  - change (test_observations (emit CheckpointSaved t2)) with (test_observations t2).
    rewrite Hobs, Hobs1, Hte1. reflexivity.
Qed.


End StepFacts.

Section StepWitnesses.
Import Py Loop.
#[local] Open Scope Z_scope.

Lemma global_step_counts_steps_witness :
  global_step
    (for_each [1; 2; 3]
       (__train_step (lib := Example.library Example.no_checkpoint) false)
       (Example.trainer (Example.options false 1 16)))
  = 3.
Proof.
  apply (global_step_counts_steps
           (lib := Example.library Example.no_checkpoint) false [1; 2; 3]
           (Example.trainer (Example.options false 1 16))).
  - reflexivity.
  - vm_compute. reflexivity.
Defined.

Lemma pass1_updates_net_only_witness :
  variables
    (_train_step_pass1 (lib := Example.library Example.no_checkpoint) 5
       (Example.trainer (Example.options false 1 16))) !! "p"
  = Some 20.
Proof.
  destruct (pass1_updates_net_only
              (lib := Example.library Example.no_checkpoint) 5
              (Example.trainer (Example.options false 1 16))) as [Hpred _].
  - intros name Hin Hnet. cbn in Hin, Hnet.
    apply list_elem_of_singleton in Hin. apply list_elem_of_singleton in Hnet.
    subst name. discriminate Hnet.
  - rewrite (Hpred "p"); [reflexivity |].
    cbn. apply list_elem_of_singleton. reflexivity.
Defined.

(** C7 (as stated) fails on a run of one epoch over two batches: two
    training summaries are written in that one epoch, the first of them
    before the second batch is consumed. *)
Lemma training_summaries_twice_in_one_epoch :
  let t' := fst (train (lib := Example.library Example.no_checkpoint)
                       (Example.trainer (Example.options false 1 16))) in
  out t' = [SummaryTrain 1; SummaryTrain 2; PrintEpoch 0; SummaryVal 2;
            PrintTest; CheckpointSaved]
  /\ global_epoch t' = 1
  /\ train_summaries (out t') = [1; 2]
  /\ length (train_summaries (out t')) <> Z.to_nat (global_epoch t').
Proof.
  cbn zeta. split; [vm_compute; reflexivity |].
  split; [vm_compute; reflexivity |].
  split; [vm_compute; reflexivity |].
  vm_compute. discriminate.
Qed.

Lemma validation_every_fifth_epoch_witness :
  validated_epochs
    (out (fst (train (lib := Example.library Example.no_checkpoint)
                     (Example.trainer (Example.options false 12 16)))))
  = [0; 5; 10].
Proof.
  destruct (validation_every_fifth_epoch
              (lib := Example.library Example.no_checkpoint)
              (Example.trainer (Example.options false 12 16))) as [Hval _].
  - repeat split.
  - exact Hval.
Defined.



End StepWitnesses.

(** * Further properties *)

(** ** More on the boundaries *)

Section MoreBoundaryFacts.
Import Py Quantizer QuantizerSpec.
#[local] Open Scope Z_scope.

Lemma boundaries_zero : boundaries 0 = Raise ZeroDivisionError.
Proof. reflexivity. Qed.

Lemma boundaries_negative (d : Z) : d < 0 -> boundaries d = Ok [].
Proof.
  intros Hd. unfold boundaries. rewrite floordiv_nonzero by lia.
  cbn [mbind result_bind bind].
  assert (Hs : 256 / d < 0).
  { pose proof (Z_div_mod_eq_full 256 d) as Heq.
    pose proof (Z.mod_neg_bound 256 d Hd) as Hm.
    nia. }
  unfold range. destruct (Z.eqb_spec (256 / d) 0) as [E | _]; [lia |].
  unfold range_len.
  destruct (Z.ltb_spec 0 (256 / d)) as [E | _]; [lia |].
  cbn. reflexivity.
Qed.

(** X1: the boundary construction of line 71 succeeds exactly for a
    negative bucket count and for one in [1..256]; 0 raises
    [ZeroDivisionError] and a count above 256 raises [ValueError]. *)
Theorem boundaries_accepts (d : Z) :
  (is_ok (boundaries d) = true <-> d < 0 \/ 1 <= d <= 256)
  /\ (d = 0 -> boundaries d = Raise ZeroDivisionError)
  /\ (256 < d -> boundaries d = Raise ValueError).
Proof.
  split; [| split].
  - split.
    + intros Hok.
      destruct (Z.eq_dec d 0) as [-> | Hne]; [discriminate Hok |].
      destruct (Z_lt_le_dec 256 d) as [Hbig | Hsmall].
      * rewrite boundaries_above_256 in Hok by exact Hbig. discriminate Hok.
      * lia.
    + intros [Hneg | Hin].
      * rewrite boundaries_negative by exact Hneg. reflexivity.
      * apply boundaries_upto_256. exact Hin.
  - intros ->. reflexivity.
  - apply boundaries_above_256.
Qed.

Lemma boundaries_layout_upto_256 (d : Z) :
  1 <= d <= 256 -> boundaries_layout d = true.
Proof.
  apply (check_upto boundaries_layout 256). vm_compute. reflexivity.
Qed.

(** X2: for every bucket count in [1..256] the boundary list is strictly
    increasing, its [i]-th entry is [(i + 1) * (256 // dim_bias)], every
    entry lies strictly between 0 and 256, and it has
    [255 // (256 // dim_bias)] entries, which is at least [dim_bias - 1]. *)
Theorem boundaries_layout_spec (d : Z) :
  1 <= d <= 256 ->
  exists bs,
    boundaries d = Ok bs
    /\ Z.of_nat (length bs) = 255 / (256 / d)
    /\ d - 1 <= Z.of_nat (length bs)
    /\ strictly_increasing bs = true
    /\ Forall (fun b => 0 < b < 256) bs
    /\ forall i : nat, (i < length bs)%nat -> nth i bs 0 = (Z.of_nat i + 1) * (256 / d).
Proof.
  intros Hd. pose proof (boundaries_layout_upto_256 d Hd) as Hc.
  unfold boundaries_layout in Hc.
  destruct (boundaries d) as [bs | e]; [| discriminate].
  exists bs. split; [reflexivity |].
  apply andb_prop in Hc. destruct Hc as [Hc Hnth].
  apply andb_prop in Hc. destruct Hc as [Hc Hin].
  apply andb_prop in Hc. destruct Hc as [Hc Hinc].
  apply andb_prop in Hc. destruct Hc as [Hlen Hge].
  split; [apply Z.eqb_eq; exact Hlen |].
  split; [apply Z.leb_le; exact Hge |].
  split; [exact Hinc |].
  split.
  - apply Forall_forall. intros b Hb.
    rewrite forallb_forall in Hin. apply list_elem_of_In in Hb.
    specialize (Hin b Hb). apply andb_prop in Hin. destruct Hin as [H1 H2].
    split; apply Z.ltb_lt; assumption.
  - intros i Hi. rewrite forallb_forall in Hnth.
    apply Z.eqb_eq, Hnth. apply in_seq. lia.
Qed.

End MoreBoundaryFacts.

(** ** More on the quantizer *)

Section MoreQuantizerFacts.
Import Py Quantizer.

(** X4: the quantizer is monotone: a larger channel value never gets a
    smaller bucket, whatever the boundary list. *)
Theorem quantize_monotone (bs : list Z) (x y : Q) :
  (x <= y)%Q -> (_quantize bs x <= _quantize bs y)%Z.
Proof.
  intros Hxy. unfold _quantize. induction bs as [| b bs IH]; cbn [Bucketize]; [lia |].
  destruct (Qle_bool (inject_Z b) x) eqn:Ex.
  - apply Qle_bool_iff in Ex.
    assert (Ey : Qle_bool (inject_Z b) y = true).
    { apply Qle_bool_iff. apply Qle_trans with x; assumption. }
    rewrite Ey. lia.
  - destruct (Qle_bool (inject_Z b) y); [| lia].
    pose proof (Bucketize_range y bs). lia.
Qed.

Lemma below_integer (x : Q) (n : Z) : (Qfloor x < n)%Z -> (x < inject_Z n)%Q.
Proof.
  intros Hlt. apply Qlt_le_trans with (inject_Z (Qfloor x + 1)).
  - apply Qlt_floor.
  - rewrite <- Zle_Qle. lia.
Qed.

Lemma above_integer (x : Q) (n : Z) : (n <= Qfloor x)%Z -> (inject_Z n <= x)%Q.
Proof.
  intros Hle. apply Qle_trans with (inject_Z (Qfloor x)).
  - rewrite <- Zle_Qle. exact Hle.
  - apply Qfloor_le.
Qed.

(** X5: with a bucket count that divides 256, the bucket of a channel value
    in [0, 256) is its integer part divided by the bucket width
    [256 // dim_bias]. *)
Theorem quantize_is_floor_division (d : Z) (bs : list Z) (x : Q) :
  (1 <= d)%Z -> (d | 256)%Z -> boundaries d = Ok bs ->
  (0 <= x)%Q -> (x < 256)%Q ->
  _quantize bs x = (Qfloor x / (256 / d))%Z.
Proof.
  intros H1 Hdiv Hbs Hx0 Hx256.
  destruct (boundaries_of_divisor d H1 Hdiv) as (bs' & Hbs' & Hlen & Hinc & _ & Hnth).
  rewrite Hbs in Hbs'. injection Hbs' as <-.
  set (s := (256 / d)%Z) in *.
  assert (Hds : (256 = d * s)%Z).
  { unfold s. destruct Hdiv as [k Hk].
    rewrite Hk at 2. rewrite Z.div_mul by lia. lia. }
  assert (Hs : (1 <= s)%Z) by nia.
  assert (Hf0 : (0 <= Qfloor x)%Z).
  { change 0%Z with (Qfloor 0). apply Qfloor_resp_le. exact Hx0. }
  assert (Hf256 : (Qfloor x < 256)%Z).
  { destruct (Z_lt_le_dec (Qfloor x) 256) as [H | H]; [exact H |].
    exfalso. apply (Qlt_not_le _ _ Hx256). apply (above_integer x 256 H). }
  set (q := (Qfloor x / s)%Z).
  assert (Hq : (q * s <= Qfloor x < (q + 1) * s)%Z).
  { unfold q. pose proof (Z_div_mod_eq_full (Qfloor x) s).
    pose proof (Z.mod_pos_bound (Qfloor x) s ltac:(lia)). nia. }
  assert (Hq0 : (0 <= q)%Z) by (unfold q; apply Z.div_pos; lia).
  assert (Hqd : (q < d)%Z) by nia.
  unfold _quantize.
  destruct (Z.eq_dec q 0%Z) as [E0 | Hpos].
  - fold q. rewrite E0.
    destruct bs as [| b bs']; [reflexivity |].
    apply Bucketize_below_first.
    pose proof (Hnth 0%nat ltac:(cbn; lia)) as Hb. cbn [nth] in Hb.
    apply below_integer. lia.
  - rewrite (Bucketize_between bs (Z.to_nat (q - 1)) x).
    + lia.
    + exact Hinc.
    + lia.
    + rewrite Hnth by lia. apply above_integer.
      replace (Z.of_nat (Z.to_nat (q - 1)) + 1)%Z with q by lia. lia.
    + intros Hsi. rewrite Hnth by lia. apply below_integer.
      replace (Z.of_nat (S (Z.to_nat (q - 1))) + 1)%Z with (q + 1)%Z by lia. lia.
Qed.

End MoreQuantizerFacts.

(** ** [_preprocess] *)

Section PreprocessFacts.
Import Py Quantizer PreprocessSpec.
Variable resize : image -> image.

Lemma nested_map_shape {A B : Type} (f : A -> B) (rows : list (list A)) :
  map (@length B) (map (map f) rows) = map (@length A) rows.
Proof.
  induction rows as [| r rows IH]; cbn [map]; [reflexivity |].
  rewrite IH, length_map. reflexivity.
Qed.

Lemma nested_map_forall {A B : Type} (f : A -> B) (P : B -> Prop) (rows : list (list A)) :
  (forall a, P (f a)) -> Forall (Forall P) (map (map f) rows).
Proof.
  intros HP. apply Forall_map. apply Forall_forall. intros r _.
  apply Forall_map. apply Forall_forall. intros a _. apply HP.
Qed.

(** X6: with a bucket count that divides 256, the bias label [_preprocess]
    returns has the shape of the resized colour map, each of its entries is
    in [0, dim_bias), and the class label is passed through. *)
Theorem preprocess_bias_label (d : Z) (bs : list Z) (img : image) (label : Z) :
  (1 <= d)%Z -> (d | 256)%Z -> boundaries d = Ok bs ->
  let result := _preprocess resize bs img label in
  snd (fst result) = label
  /\ map (@length _) (snd result) = map (@length _) (resize img)
  /\ length (snd result) = length (resize img)
  /\ all_labels (fun l => (0 <= l < d)%Z) (snd result).
Proof.
  intros H1 Hdiv Hbs. cbn zeta. unfold _preprocess. cbn [fst snd].
  split; [reflexivity |].
  split; [apply nested_map_shape |].
  split; [apply length_map |].
  unfold all_labels. apply nested_map_forall. intros p. cbn [fst snd].
  repeat split; apply (quantize_range_of_divisor d bs _ H1 Hdiv Hbs).
Qed.


(** X3: a negative bucket count is accepted: the boundary list is empty and
    the bias label [_preprocess] derives is 0 at every pixel and channel. *)
Theorem negative_dim_bias_labels_zero (d : Z) (img : image) (label : Z) :
  (d < 0)%Z ->
  exists bs,
    boundaries d = Ok bs
    /\ snd (_preprocess resize bs img label)
       = map (map (fun _ => (0, 0, 0)%Z)) (resize img).
Proof.
  intros Hd. exists []. split; [apply boundaries_negative; exact Hd | reflexivity].
Qed.

End PreprocessFacts.

(** ** Steps, runs and the entry point *)

Section MoreStepFacts.
Import Py Loop LoopSpec.
Context {value batch dataset : Type} {lib : Library value batch dataset}.
#[local] Open Scope Z_scope.

Ltac split_updates :=
  repeat match goal with
         | |- context [apply_gradients ?o ?g ?v] => destruct (apply_gradients o g v)
         end.

Lemma fold_apply_one_iterations (gvs : list (value * string)) :
  forall (o : Optimizer value) (vs : gmap string value),
    iterations (fst (fold_left apply_one gvs (o, vs))) = iterations o.
Proof.
  induction gvs as [| [g name] gvs IH]; intros o vs; [reflexivity |].
  cbn [fold_left]. cbn [apply_one].
  destruct (vs !! name) as [v |]; [| apply IH].
  destruct (sgd_update _ _ g v) as [v' m']. rewrite IH. reflexivity.
Qed.

(** One [apply_gradients] call is one optimizer iteration, however many
    variables it is given. *)
Lemma apply_gradients_iterations (o : Optimizer value) (gvs : list (value * string))
  (vs : gmap string value) :
  iterations (fst (apply_gradients o gvs vs)) = assign_add (iterations o) 1.
Proof.
  unfold apply_gradients.
  pose proof (fold_apply_one_iterations gvs o vs) as Hf.
  destruct (fold_left apply_one gvs (o, vs)) as [o' vs']. cbn [fst] in *.
  cbn [iterations]. rewrite Hf. reflexivity.
Qed.

Lemma pass1_optimizer (b : batch) (t : Trainer value batch) :
  optimizer (_train_step_pass1 b t)
  = fst (apply_gradients (optimizer t)
           (zip (map (grad_loss (variables t) b) (net (models t))) (net (models t)))
           (variables t)).
Proof. unfold _train_step_pass1. split_updates. reflexivity. Qed.

Lemma pass2_variables_eq (b : batch) (t : Trainer value batch) :
  variables (_train_step_pass2 b t)
  = snd (apply_gradients (optimizer_color t)
           (zip (map (grad_loss_pred_color (variables t) b) (pass2_variables (models t)))
                (pass2_variables (models t)))
           (variables t)).
Proof. unfold _train_step_pass2. split_updates. reflexivity. Qed.

Lemma pass2_optimizer_color (b : batch) (t : Trainer value batch) :
  optimizer_color (_train_step_pass2 b t)
  = fst (apply_gradients (optimizer_color t)
           (zip (map (grad_loss_pred_color (variables t) b) (pass2_variables (models t)))
                (pass2_variables (models t)))
           (variables t)).
Proof. unfold _train_step_pass2. split_updates. reflexivity. Qed.

Lemma pass1_keeps (b : batch) (t : Trainer value batch) :
  models (_train_step_pass1 b t) = models t
  /\ optimizer_color (_train_step_pass1 b t) = optimizer_color t
  /\ global_step (_train_step_pass1 b t) = global_step t.
Proof. unfold _train_step_pass1. split_updates. repeat split. Qed.

Lemma pass2_keeps (b : batch) (t : Trainer value batch) :
  models (_train_step_pass2 b t) = models t
  /\ optimizer (_train_step_pass2 b t) = optimizer t
  /\ global_step (_train_step_pass2 b t) = global_step t.
Proof. unfold _train_step_pass2. split_updates. repeat split. Qed.

(** X8: a two-pass training step changes no variable outside the four
    models' trainable variables, and advances each of the two optimizers by
    exactly one iteration. *)
Theorem train_step_footprint (b : batch) (t : Trainer value batch) :
  (forall name, name ∉ pass2_variables (models t) ->
                variables (_train_step b t) !! name = variables t !! name)
  /\ iterations (optimizer (_train_step b t)) = assign_add (iterations (optimizer t)) 1
  /\ iterations (optimizer_color (_train_step b t))
     = assign_add (iterations (optimizer_color t)) 1.
Proof.
  destruct (pass1_keeps b t) as (Hm1 & Hoc1 & _).
  destruct (pass2_keeps b (_train_step_pass1 b t)) as (Hm2 & Ho2 & _).
  unfold _train_step. cbn zeta.
  change (variables (with_global_step ?n ?u)) with (variables u).
  change (optimizer (with_global_step ?n ?u)) with (optimizer u).
  change (optimizer_color (with_global_step ?n ?u)) with (optimizer_color u).
  split; [| split].
  - intros name Hnot.
    rewrite pass2_variables_eq, apply_gradients_frame.
    + apply pass1_frame. intros Hin. apply Hnot.
      unfold pass2_variables. apply elem_of_app. left. exact Hin.
    + apply zip_names. rewrite Hm1. exact Hnot.
  - rewrite Ho2, pass1_optimizer. apply apply_gradients_iterations.
  - rewrite pass2_optimizer_color, apply_gradients_iterations, Hoc1. reflexivity.
Qed.

(** ** The baseline *)

Lemma baseline_step_frame (b : batch) (t : Trainer value batch) :
  (forall name, name ∉ net (models t) ->
                variables (_train_step_baseline b t) !! name = variables t !! name)
  /\ optimizer_color (_train_step_baseline b t) = optimizer_color t
  /\ color_loss (metrics (_train_step_baseline b t)) = color_loss (metrics t)
  /\ mi_loss (metrics (_train_step_baseline b t)) = mi_loss (metrics t)
  /\ models (_train_step_baseline b t) = models t.
Proof.
  assert (Hv : variables (_train_step_baseline b t)
               = snd (apply_gradients (optimizer t)
                        (zip (map (grad_loss_pred (variables t) b) (net (models t)))
                             (net (models t)))
                        (variables t))).
  { unfold _train_step_baseline. split_updates. reflexivity. }
  split.
  - intros name Hnot. rewrite Hv. apply apply_gradients_frame, zip_names, Hnot.
  - unfold _train_step_baseline. split_updates. repeat split.
Qed.

Lemma untouched_refl (t : Trainer value batch) : untouched_by_baseline t t.
Proof. repeat split. Qed.

Lemma untouched_trans (t t1 t2 : Trainer value batch) :
  untouched_by_baseline t t1 -> untouched_by_baseline t1 t2 ->
  untouched_by_baseline t t2.
Proof.
  intros (Hv1 & Ho1 & Hc1 & Hm1 & Hmod1) (Hv2 & Ho2 & Hc2 & Hm2 & Hmod2).
  repeat split; try congruence.
  intros name Hnot. rewrite Hv2, Hv1; [reflexivity | exact Hnot |].
  rewrite Hmod1. exact Hnot.
Qed.

Lemma untouched_for_each {X : Type} (body : X -> Trainer value batch -> Trainer value batch)
  (l : list X) :
  (forall x u, untouched_by_baseline u (body x u)) ->
  forall t, untouched_by_baseline t (for_each l body t).
Proof.
  intros Hbody. induction l as [| x l IH]; intros t.
  - apply untouched_refl.
  - rewrite for_each_cons. eapply untouched_trans; [apply Hbody | apply IH].
Qed.

Lemma baseline_epoch_untouched (epoch : Z) (t : Trainer value batch) :
  untouched_by_baseline t (train_epoch (__train_step true) epoch t).
Proof.
  unfold train_epoch. lazy zeta.
  set (t1 := batch_loop (__train_step true) (train_ds t epoch) t).
  assert (H1 : untouched_by_baseline t t1).
  { unfold t1, batch_loop. apply untouched_for_each. intros b u.
    destruct (baseline_step_frame b u) as (Hv & Ho & Hc & Hm & Hmod).
    repeat split; assumption. }
  set (t2 := emit (PrintEpoch epoch) (with_global_epoch (assign_add (global_epoch t1) 1) t1)).
  assert (H2 : untouched_by_baseline t1 t2) by (repeat split).
  assert (H3 : forall u, untouched_by_baseline u (for_each (test_ds u) _test_step u)).
  { intros u. apply untouched_for_each. intros b v. repeat split. }
  destruct (epoch mod 5 =? 0).
  - eapply untouched_trans; [exact H1 |].
    eapply untouched_trans; [exact H2 |].
    eapply untouched_trans; [apply (H3 t2) |]. repeat split.
  - eapply untouched_trans; [exact H1 | exact H2].
Qed.

(** X10: a baseline run ([train_baseline] set) never writes a variable that
    is not one of the net's, so the predictors end with the values the
    restore left them; nor does it touch the second optimizer or the colour
    and self-distillation metrics. *)
Theorem baseline_run_leaves_predictors (t : Trainer value batch) :
  let t1 := fst (_restore_checkpoint t) in
  let t' := fst (train t) in
  train_baseline (args t1) = true ->
  (forall name, name ∉ net (models t1) -> variables t' !! name = variables t1 !! name)
  /\ optimizer_color t' = optimizer_color t1
  /\ color_loss (metrics t') = color_loss (metrics t1)
  /\ mi_loss (metrics t') = mi_loss (metrics t1).
Proof.
  cbn zeta. intros Hb.
  set (t1 := fst (_restore_checkpoint t)) in *.
  destruct (range_step_1_ok (global_epoch t1) (max_epoch (args t1))) as [epochs He].
  pose proof (train_from_restored t epochs) as Htrain. cbn zeta in Htrain.
  fold t1 in Htrain. rewrite (Htrain He), Hb. cbn [fst].
  pose proof (untouched_for_each (train_epoch (__train_step true)) epochs
                (fun e u => baseline_epoch_untouched e u) t1)
    as (Hv & Ho & Hc & Hm & _).
  repeat split; assumption.
Qed.


(** ** Totals of a run *)

Lemma counter_after_add (a b : nat) :
  forall g, counter_after g (a + b) = counter_after (counter_after g a) b.
Proof. induction a as [| a IH]; intros g; [reflexivity | apply IH]. Qed.

Lemma counter_values_add (a b : nat) :
  forall g, counter_values g (a + b)
            = counter_values g a ++ counter_values (counter_after g a) b.
Proof.
  induction a as [| a IH]; intros g; [reflexivity |].
  cbn [Nat.add counter_values counter_after app]. rewrite IH. reflexivity.
Qed.

Lemma epoch_loop_totals (baseline : bool) (epochs : list Z) :
  forall t : Trainer value batch,
    let t' := for_each epochs (train_epoch (__train_step baseline)) t in
    let n := total_batches (train_ds t) epochs in
    global_step t' = counter_after (global_step t) n
    /\ train_summaries (out t') = train_summaries (out t) ++ counter_values (global_step t) n.
Proof.
  induction epochs as [| epoch epochs IH]; intros t.
  - cbn. rewrite app_nil_r. split; reflexivity.
  - cbn zeta. rewrite for_each_cons.
    destruct (train_epoch_spec baseline epoch t)
      as (Hout & Hstep & _ & _ & _ & _ & Htr & _).
    set (t1 := train_epoch (__train_step baseline) epoch t) in *.
    destruct (IH t1) as (Hg & Hs). cbn zeta in Hg, Hs.
    cbn [total_batches fold_right].
    fold (total_batches (train_ds t) epochs).
    rewrite Htr in Hg, Hs.
    split.
    + rewrite Hg, Hstep, counter_after_add. reflexivity.
    + rewrite Hs, Hout, Hstep, train_summaries_app, train_summaries_epoch_out.
      rewrite counter_values_add, app_assoc. reflexivity.
Qed.

Lemma range_step_1 (a b : Z) : range a b 1 = Ok (epochs_from a b).
Proof.
  unfold range, epochs_from, range_len. cbn [Z.eqb Z.ltb Z.compare].
  f_equal.
  assert (Hlen : Z.to_nat (if a <? b then (b - a - 1) / 1 + 1 else 0) = Z.to_nat (b - a)).
  { destruct (Z.ltb_spec a b); [rewrite Z.div_1_r |]; lia. }
  rewrite Hlen. apply map_ext. intros i. lia.
Qed.

Lemma train_resumed (t : Trainer value batch) :
  let t1 := fst (_restore_checkpoint t) in
  train t
  = (emit CheckpointSaved
       (for_each (epochs_from (global_epoch t1) (max_epoch (args t1)))
          (train_epoch (__train_step (train_baseline (args t1)))) t1),
     Ok tt).
Proof. cbn zeta. apply train_from_restored. apply range_step_1. Qed.

Lemma fresh_start_restored (t : Trainer value batch) :
  fresh_start t ->
  let t1 := fst (_restore_checkpoint t) in
  args t1 = args t /\ global_epoch t1 = 0 /\ global_step t1 = 0
  /\ train_ds t1 = train_ds t /\ test_ds t1 = test_ds t
  /\ train_summaries (out t1) = [] /\ validated_epochs (out t1) = [].
Proof.
  intros (Hstep & Hepoch & Hout & Hrestore). cbn zeta.
  rewrite restore_checkpoint_cases. cbn [fst]. rewrite Hrestore.
  destruct (snd (checkpoint_restore t));
    cbn [emit args global_epoch global_step train_ds test_ds out];
    rewrite Hout; repeat split; assumption.
Qed.

(** X12: after [train] from a fresh start the epoch counter is [max_epoch]
    (0 if that is negative), the global step is the number of batches of all
    epochs, and the training summaries were written at steps 1, 2, ..., that
    number (within the range of the [tf.int64] counters). *)
Theorem train_totals (t : Trainer value batch) :
  fresh_start t ->
  max_epoch (args t) < 2 ^ 63 ->
  let n := total_batches (train_ds t) (epochs_upto (max_epoch (args t))) in
  Z.of_nat n < 2 ^ 63 ->
  let t' := fst (train t) in
  global_epoch t' = Z.max 0 (max_epoch (args t))
  /\ global_step t' = Z.of_nat n
  /\ train_summaries (out t') = steps_after 0 n.
Proof.
  intros Hfresh Hmax n Hn. cbn zeta.
  destruct (fresh_start_restored t Hfresh) as (Ha & Hep & Hst & Htr & _ & Hsum & _).
  rewrite train_resumed. cbn zeta. cbn [fst].
  set (t1 := fst (_restore_checkpoint t)) in *.
  rewrite Hep, Ha.
  assert (Heq : epochs_from 0 (max_epoch (args t)) = epochs_upto (max_epoch (args t))).
  { unfold epochs_from, epochs_upto. rewrite Z.sub_0_r. apply map_ext. intros i. lia. }
  rewrite Heq.
  destruct (epoch_loop_spec (train_baseline (args t)) (epochs_upto (max_epoch (args t))) t1)
    as (_ & Hge & _).
  destruct (epoch_loop_totals (train_baseline (args t)) (epochs_upto (max_epoch (args t))) t1)
    as (Hgs & Hts).
  cbn zeta in Hge, Hgs, Hts. rewrite Htr in Hgs, Hts. fold n in Hgs, Hts.
  change (global_epoch (emit CheckpointSaved ?u)) with (global_epoch u).
  change (global_step (emit CheckpointSaved ?u)) with (global_step u).
  split; [| split].
  - rewrite Hge, Hep. unfold epochs_upto. rewrite length_map, length_seq.
    rewrite counter_after_small by lia. lia.
  - rewrite Hgs, Hst. rewrite counter_after_small by lia. lia.
  - cbn [emit out]. rewrite train_summaries_app, Hts, Hsum, Hst.
    cbn [train_summaries flat_map app]. rewrite app_nil_r.
    apply counter_values_small; lia.
Qed.

(** X13: when the restored epoch counter has reached [max_epoch], [train]
    runs no step and writes no summary: it only saves a checkpoint of the
    restored trainer. *)
Theorem train_nothing_left (t : Trainer value batch) :
  let t1 := fst (_restore_checkpoint t) in
  max_epoch (args t1) <= global_epoch t1 ->
  train t = (emit CheckpointSaved t1, Ok tt).
Proof.
  cbn zeta. intros Hle. rewrite train_resumed. cbn zeta.
  unfold epochs_from. rewrite Z2Nat.nonpos by lia. reflexivity.
Qed.



(** ** Evaluation *)

Lemma test_loop_untouched (batches : list batch) :
  forall t : Trainer value batch, untouched_by_test t (for_each batches _test_step t).
Proof.
  induction batches as [| b batches IH]; intros t.
  - repeat split.
  - rewrite for_each_cons.
    destruct (IH (_test_step b t)) as (Hv & Ho & Hoc & Hs & He & H1 & H2 & H3 & H4).
    unfold untouched_by_test.
    rewrite Hv, Ho, Hoc, Hs, He, H1, H2, H3, H4. repeat split.
Qed.


(** ** The entry point *)

(** X16: with a phase other than "train" and "test", [main] raises
    [ValueError] once the trainer is constructed; if the construction fails,
    its exception is the one raised. *)
Theorem main_unknown_phase (a : Args) (fresh : Models * gmap string value)
  (loaded : result dataset) :
  phase a <> "train" -> phase a <> "test" ->
  main a fresh loaded
  = match __init__ a fresh loaded with
    | Ok _ => Raise ValueError
    | Raise e => Raise e
    end.
Proof.
  intros Htrain Htest. unfold main.
  destruct (__init__ a fresh loaded) as [t | e]; cbn [mbind result_bind bind];
    [| reflexivity].
  destruct (String.eqb_spec (phase a) "train") as [E | _]; [contradiction |].
  destruct (String.eqb_spec (phase a) "test") as [E | _]; [contradiction |].
  reflexivity.
Qed.

Lemma init_ok (a : Args) (fresh : Models * gmap string value) (ds : dataset) :
  1 <= dim_bias a <= 256 ->
  exists t0, __init__ a fresh (Ok ds) = Ok t0
    /\ args t0 = a /\ global_step t0 = 0 /\ global_epoch t0 = 0 /\ out t0 = []
    /\ variables t0 = snd fresh /\ models t0 = fst fresh
    /\ Quantizer.boundaries (dim_bias a) = Ok (_quantize_boundaries t0).
Proof.
  intros Hd. pose proof (boundaries_upto_256 _ Hd) as Hok.
  unfold __init__, _preprocess_dataset. cbn [mbind result_bind bind].
  destruct (Quantizer.boundaries (dim_bias a)) as [bs | e]; [| discriminate].
  cbn [bind mret result_ret]. eexists. split; [reflexivity |]. repeat split.
Qed.

(** X17: [main] in the train phase, with a bucket count in [1..256] and no
    checkpoint to restore, constructs the trainer, trains it, validates at
    the multiples of 5 below [max_epoch] and ends by saving a checkpoint. *)
Theorem main_train_run (a : Args) (fresh : Models * gmap string value) (ds : dataset) :
  phase a = "train" ->
  1 <= dim_bias a <= 256 ->
  (forall t0, __init__ a fresh (Ok ds) = Ok t0 -> fst (checkpoint_restore t0) = t0) ->
  exists t0 t',
    __init__ a fresh (Ok ds) = Ok t0
    /\ main a fresh (Ok ds) = Ok t'
    /\ t' = fst (train t0)
    /\ validated_epochs (out t') = List.filter div5 (epochs_upto (max_epoch a))
    /\ exists written, out t' = written ++ [CheckpointSaved].
Proof.
  intros Hphase Hd Hrestore.
  destruct (init_ok a fresh ds Hd) as (t0 & Hinit & Ha & Hs & He & Ho & _).
  exists t0, (fst (train t0)).
  split; [exact Hinit |].
  assert (Hfresh : fresh_start t0).
  { repeat split; try assumption. apply Hrestore. exact Hinit. }
  split.
  { unfold main. rewrite Hinit. cbn [mbind result_bind bind]. rewrite Hphase.
    cbn [String.eqb Ascii.eqb Bool.eqb]. unfold run.
    rewrite train_resumed. reflexivity. }
  split; [reflexivity |].
  split.
  - destruct (fresh_start_restored t0 Hfresh) as (Ha1 & Hep1 & _ & _ & _ & _ & Hv1).
    cbn zeta in Ha1, Hep1, Hv1.
    rewrite train_resumed. cbn zeta. cbn [fst].
    set (t1 := fst (_restore_checkpoint t0)) in *.
    destruct (epoch_loop_spec (train_baseline (args t1))
                (epochs_from (global_epoch t1) (max_epoch (args t1))) t1) as (Hn & _).
    unfold validated_epochs in *. cbn [emit out]. rewrite fold_left_app.
    cbn [fold_left note_event]. rewrite Hn, Hv1, Hep1, Ha1, Ha. cbn [app].
    f_equal. unfold epochs_from, epochs_upto. rewrite Z.sub_0_r.
    apply map_ext. intros i. lia.
  - rewrite train_resumed. cbn [fst emit out]. eexists. reflexivity.
Qed.


(** ** The running metrics *)

Lemma grows_by_refl (l : list value) : grows_by l l 0.
Proof. exists []. rewrite app_nil_r. split; reflexivity. Qed.

Lemma grows_by_trans (l l1 l2 : list value) (a b : nat) :
  grows_by l l1 a -> grows_by l1 l2 b -> grows_by l l2 (a + b).
Proof.
  intros (n1 & -> & <-) (n2 & -> & <-). exists (n1 ++ n2).
  rewrite app_assoc, length_app. split; reflexivity.
Qed.

Lemma grows_by_one (l : list value) (x : value) : grows_by l (l ++ [x]) 1.
Proof. exists [x]. split; reflexivity. Qed.

Lemma train_metrics_grow_trans (t t1 t2 : Trainer value batch) (n1 c1 n2 c2 : nat) :
  train_metrics_grow t t1 n1 c1 -> train_metrics_grow t1 t2 n2 c2 ->
  train_metrics_grow t t2 (n1 + n2) (c1 + c2).
Proof.
  intros (A1 & B1 & C1 & D1) (A2 & B2 & C2 & D2).
  repeat split; eapply grows_by_trans; eassumption.
Qed.

Lemma train_step_metrics (b : batch) (t : Trainer value batch) :
  let m := metrics (_train_step b t) in
  classifier_loss m = classifier_loss (metrics t) ++ [forward_loss_pred (variables t) b]
  /\ mi_loss m = mi_loss (metrics t) ++ [forward_loss_pred_ps_color (variables t) b]
  /\ classifier_accuracy m
     = classifier_accuracy (metrics t) ++ [forward_accuracy (variables t) b]
  /\ color_loss m
     = color_loss (metrics t)
       ++ [forward_loss_pred_color (variables (_train_step_pass1 b t)) b].
Proof.
  cbn zeta. unfold _train_step. cbn zeta.
  change (metrics (with_global_step ?n ?u)) with (metrics u).
  assert (H1 : metrics (_train_step_pass1 b t)
               = observe_train (forward_loss_pred (variables t) b)
                               (forward_loss_pred_ps_color (variables t) b)
                               (forward_accuracy (variables t) b) (metrics t)).
  { unfold _train_step_pass1. split_updates. reflexivity. }
  assert (H2 : forall u, metrics (_train_step_pass2 b u)
               = observe_color (forward_loss_pred_color (variables u) b) (metrics u)).
  { intros u. unfold _train_step_pass2. split_updates. reflexivity. }
  rewrite H2, H1. repeat split.
Qed.

Lemma step_metrics_grow (baseline : bool) (b : batch) (t : Trainer value batch) :
  train_metrics_grow t (__train_step baseline b t) 1 (if baseline then 0 else 1).
Proof.
  destruct baseline; cbn [__train_step].
  - assert (Hm : metrics (_train_step_baseline b t)
                 = observe_baseline (forward_loss_pred (variables t) b)
                                    (forward_accuracy (variables t) b) (metrics t)).
    { unfold _train_step_baseline. split_updates. reflexivity. }
    unfold train_metrics_grow. rewrite Hm. cbn.
    repeat split; first [apply grows_by_one | apply grows_by_refl].
  - destruct (train_step_metrics b t) as (H1 & H2 & H3 & H4). cbn zeta in *.
    unfold train_metrics_grow. rewrite H1, H2, H3, H4.
    repeat split; apply grows_by_one.
Qed.

Lemma batch_loop_metrics_grow (baseline : bool) (batches : list batch) :
  forall t : Trainer value batch,
    train_metrics_grow t (batch_loop (__train_step baseline) batches t)
      (length batches) (if baseline then 0 else length batches).
Proof.
  induction batches as [| b batches IH]; intros t.
  - destruct baseline; repeat split; apply grows_by_refl.
  - unfold batch_loop. rewrite for_each_cons.
    set (t1 := _write_summary_train _ _).
    assert (H1 : train_metrics_grow t t1 1 (if baseline then 0 else 1)).
    { exact (step_metrics_grow baseline b t). }
    pose proof (train_metrics_grow_trans _ _ _ _ _ _ _ H1 (IH t1)) as H.
    unfold batch_loop in H. cbn [length].
    destruct baseline; exact H.
Qed.

Lemma test_loop_train_metrics (batches : list batch) (t : Trainer value batch) :
  train_metrics_grow t (for_each batches _test_step t) 0 0.
Proof.
  destruct (test_loop_untouched batches t) as (_ & _ & _ & _ & _ & H1 & H2 & H3 & H4).
  unfold train_metrics_grow. rewrite H1, H2, H3, H4.
  repeat split; apply grows_by_refl.
Qed.

(** X11: no metric is reset during an epoch: after it, each train-side
    accumulator holds its earlier observations followed by the new ones, one
    per batch for the classifier loss and accuracy, and one per batch (none
    in a baseline run) for the colour and self-distillation losses. *)
Theorem metrics_never_reset (baseline : bool) (epoch : Z) (t : Trainer value batch) :
  let k := length (train_ds t epoch) in
  train_metrics_grow t (train_epoch (__train_step baseline) epoch t)
    k (if baseline then 0 else k).
Proof.
  cbn zeta. unfold train_epoch. lazy zeta.
  pose proof (batch_loop_metrics_grow baseline (train_ds t epoch) t) as H1.
  set (t1 := batch_loop (__train_step baseline) (train_ds t epoch) t) in *.
  set (t2 := emit (PrintEpoch epoch) (with_global_epoch (assign_add (global_epoch t1) 1) t1)).
  destruct (epoch mod 5 =? 0).
  - pose proof (test_loop_train_metrics (test_ds t2) t2) as H3.
    pose proof (train_metrics_grow_trans _ _ _ _ _ _ _ H1 H3) as H.
    rewrite !Nat.add_0_r in H. exact H.
  - exact H1.
Qed.

(** X9: within one training step, the classifier and self-distillation
    losses fed to the metrics are computed on the variables as the step
    found them, and the colour loss on the variables as pass 1 left them. *)
Theorem pass2_reads_pass1_update (b : batch) (t : Trainer value batch) :
  color_loss (metrics (_train_step b t))
  = color_loss (metrics t)
    ++ [forward_loss_pred_color (variables (_train_step_pass1 b t)) b]
  /\ classifier_loss (metrics (_train_step b t))
     = classifier_loss (metrics t) ++ [forward_loss_pred (variables t) b]
  /\ mi_loss (metrics (_train_step b t))
     = mi_loss (metrics t) ++ [forward_loss_pred_ps_color (variables t) b].
Proof.
  destruct (train_step_metrics b t) as (H1 & H2 & _ & H4). cbn zeta in *.
  repeat split; assumption.
Qed.

End MoreStepFacts.

Section MoreWitnesses.
Import Py Quantizer PreprocessSpec Loop LoopSpec.
#[local] Open Scope Z_scope.

Lemma boundaries_layout_spec_witness :
  exists bs, boundaries 3 = Ok bs /\ Z.of_nat (length bs) = 255 / (256 / 3).
Proof.
  destruct (boundaries_layout_spec 3) as (bs & Hbs & Hlen & _).
  - lia.
  - exists bs. split; assumption.
Defined.

Lemma negative_dim_bias_labels_zero_witness :
  exists bs,
    boundaries (-1) = Ok bs
    /\ snd (_preprocess (fun img => img) bs white_14 7)
       = map (map (fun _ => (0, 0, 0))) white_14.
Proof.
  apply (negative_dim_bias_labels_zero (fun img => img) (-1) white_14 7). lia.
Defined.

Lemma quantize_monotone_witness :
  _quantize [64; 128; 192] 10 <= _quantize [64; 128; 192] 100.
Proof.
  apply (quantize_monotone [64; 128; 192] 10 100).
  unfold Qle. cbn. lia.
Defined.

Lemma quantize_is_floor_division_witness :
  _quantize [64; 128; 192] (261 # 2) = 2.
Proof.
  apply (quantize_is_floor_division 4 [64; 128; 192] (261 # 2)).
  - lia.
  - exists 64. reflexivity.
  - reflexivity.
  - unfold Qle. cbn. lia.
  - unfold Qlt. cbn. lia.
Defined.

Lemma preprocess_bias_label_witness :
  all_labels (fun l => 0 <= l < 4)
             (snd (_preprocess (fun img => img) [64; 128; 192] white_14 7)).
Proof.
  destruct (preprocess_bias_label (fun img => img) 4 [64; 128; 192] white_14 7)
    as (_ & _ & _ & Hall).
  - lia.
  - exists 64. reflexivity.
  - reflexivity.
  - exact Hall.
Defined.


Lemma baseline_run_leaves_predictors_witness :
  variables
    (fst (train (lib := Example.library Example.no_checkpoint)
                (Example.trainer (Example.options true 2 16)))) !! "p"
  = Some 20.
Proof.
  destruct (baseline_run_leaves_predictors
              (lib := Example.library Example.no_checkpoint)
              (Example.trainer (Example.options true 2 16))) as (Hvars & _).
  - reflexivity.
  - rewrite (Hvars "p"); [reflexivity |].
    cbn. intros Hin. apply list_elem_of_singleton in Hin. discriminate Hin.
Defined.

Lemma train_totals_witness :
  global_step
    (fst (train (lib := Example.library Example.no_checkpoint)
                (Example.trainer (Example.options false 3 16))))
  = 6.
Proof.
  destruct (train_totals (lib := Example.library Example.no_checkpoint)
              (Example.trainer (Example.options false 3 16))) as (_ & Hstep & _).
  - repeat split.
  - vm_compute. reflexivity.
  - vm_compute. reflexivity.
  - exact Hstep.
Defined.

Lemma train_nothing_left_witness :
  out (fst (train (lib := Example.library Example.no_checkpoint)
                  (Example.trainer (Example.options false 0 16))))
  = [CheckpointSaved].
Proof.
  rewrite (train_nothing_left (lib := Example.library Example.no_checkpoint)
             (Example.trainer (Example.options false 0 16))).
  - reflexivity.
  - vm_compute. discriminate.
Defined.

Lemma main_unknown_phase_witness :
  main (lib := Example.library Example.no_checkpoint)
       {| phase := "eval"; train_baseline := false; max_epoch := 1;
          batch_size := 128; dim_class := 10; dim_bias := 16 |}
       Example.fresh (Ok tt)
  = Raise ValueError.
Proof.
  rewrite (main_unknown_phase (lib := Example.library Example.no_checkpoint)).
  - reflexivity.
  - discriminate.
  - discriminate.
Defined.

Lemma main_train_run_witness :
  exists t',
    main (lib := Example.library Example.no_checkpoint)
         (Example.options false 12 16) Example.fresh (Ok tt) = Ok t'
    /\ validated_epochs (out t') = [0; 5; 10].
Proof.
  destruct (main_train_run (lib := Example.library Example.no_checkpoint)
              (Example.options false 12 16) Example.fresh tt)
    as (t0 & t' & _ & Hmain & _ & Hval & _).
  - reflexivity.
  - cbn. lia.
  - intros t0 _. reflexivity.
  - exists t'. split; [exact Hmain | exact Hval].
Defined.

End MoreWitnesses.
